(** * whispo: the MCP tool-calling service

    A shallow embedding of [src/main/simple_mcp_client.py] (the
    [SimpleMCPClient] class) and of [src/main/litellm_mcp_service.py] (the
    [LiteLLMMCPService] class), with the properties of the specification
    stated and settled against it.

    Python values that come out of [json.loads] are kept as an untyped [json]
    tree with Python's own semantics for [in], subscripting, [.get] and
    iteration, exceptions included.  The client's dictionaries are
    insertion-ordered association lists, as Python dicts are.  Subprocesses
    are objects on a heap, referred to by handle, so that the local variable
    [process] and the entry of [self.processes] alias as they do in Python.
    Coroutines are run to completion one at a time: a computation is a
    function from the world to an outcome and a new world, the outcome being
    a value, a raised exception, or a wait that never returns.  The
    connection attempts that [asyncio.gather] runs together are modelled a
    second time as small steps, one per stretch of code between two
    [await]s, which the event loop may interleave in any order.

    Console output: [print] raises when the console cannot encode the text.
    This is modelled where the text comes from the caller or from the
    collaborator, in [process_transcript_with_llm] (the model name, the
    transcript, the text of the exception the handler prints).  The
    functions of the client are modelled from the point where the server
    name has been printed (line 88 of [connect_to_server]): their other
    messages repeat that name and print numbers and texts of exceptions,
    which escape what cannot be encoded. *)

From Stdlib Require Import String Ascii List ZArith Bool Lia Sorted DecimalString.
From Stdlib Require Import QArith_base.
Local Close Scope Q_scope.
Import ListNotations.
Local Open Scope string_scope.
Set Warnings "-register-all".

(** ** Exceptions and outcomes *)

Inductive exn_kind :=
| KeyError | TypeError | AttributeError | IndexError
| TimeoutError | JSONDecodeError | OSError | LLMError
| ValueError | UnicodeEncodeError.

(** An exception object: its class and the text [str(e)] gives. *)
Record exn := Exn { exn_class : exn_kind; exn_str : string }.

Inductive outcome (A : Type) :=
| Ok (a : A)
| Raise (e : exn)
| Hang.
Arguments Ok {A} a.
Arguments Raise {A} e.
Arguments Hang {A}.

Definition obind {A B} (o : outcome A) (k : A -> outcome B) : outcome B :=
  match o with
  | Ok a => k a
  | Raise e => Raise e
  | Hang => Hang
  end.

(** ** Insertion-ordered dictionaries with string keys *)

Definition dict (V : Type) := list (string * V).

Fixpoint dict_get {V} (d : dict V) (k : string) : option V :=
  match d with
  | [] => None
  | (k', v) :: r => if String.eqb k' k then Some v else dict_get r k
  end.

Definition dict_mem {V} (d : dict V) (k : string) : bool :=
  match dict_get d k with Some _ => true | None => false end.

(** [d[k] = v]: an existing key keeps its position, a new one goes last. *)
Fixpoint dict_set {V} (d : dict V) (k : string) (v : V) : dict V :=
  match d with
  | [] => [(k, v)]
  | (k', v') :: r =>
      if String.eqb k' k then (k, v) :: r else (k', v') :: dict_set r k v
  end.

Definition dict_keys {V} (d : dict V) : list string := map fst d.
Definition dict_values {V} (d : dict V) : list V := map snd d.

(** ** JSON values as Python sees them *)

Inductive json :=
| JNull                                   (* None *)
| JBool (b : bool)
| JNum (z : Z)
| JStr (s : string)
| JArr (items : list json)
| JObj (fields : dict json).

Definition type_name (v : json) : string :=
  match v with
  | JNull => "NoneType"
  | JBool _ => "bool"
  | JNum _ => "int"
  | JStr _ => "str"
  | JArr _ => "list"
  | JObj _ => "dict"
  end.

(** [v == s] for a Python str [s]. *)
Definition json_eq_str (v : json) (s : string) : bool :=
  match v with
  | JStr t => String.eqb t s
  | _ => false
  end.

Fixpoint is_substring (p s : string) : bool :=
  if prefix p s then true
  else match s with
       | EmptyString => false
       | String _ s' => is_substring p s'
       end.

Definition py_truthy (v : json) : bool :=
  match v with
  | JNull => false
  | JBool b => b
  | JNum z => negb (Z.eqb z 0)
  | JStr s => negb (String.eqb s EmptyString)
  | JArr l => match l with [] => false | _ => true end
  | JObj f => match f with [] => false | _ => true end
  end.

(** [key in v], with a str on the left. *)
Definition py_contains (key : string) (v : json) : outcome bool :=
  match v with
  | JObj f => Ok (dict_mem f key)
  | JArr l => Ok (existsb (fun x => json_eq_str x key) l)
  | JStr s => Ok (is_substring key s)
  | _ => Raise (Exn TypeError
                  ("argument of type '" ++ type_name v ++ "' is not iterable"))
  end.

(** [v[key]], with a str key. *)
Definition py_getitem (v : json) (key : string) : outcome json :=
  match v with
  | JObj f =>
      match dict_get f key with
      | Some x => Ok x
      | None => Raise (Exn KeyError ("'" ++ key ++ "'"))
      end
  | JArr _ =>
      Raise (Exn TypeError "list indices must be integers or slices, not str")
  | JStr _ => Raise (Exn TypeError "string indices must be integers")
  | _ => Raise (Exn TypeError
                  ("'" ++ type_name v ++ "' object is not subscriptable"))
  end.

(** [v.get(key, default)]. *)
Definition py_get (v : json) (key : string) (default : json) : outcome json :=
  match v with
  | JObj f =>
      match dict_get f key with
      | Some x => Ok x
      | None => Ok default
      end
  | _ => Raise (Exn AttributeError
                  ("'" ++ type_name v ++ "' object has no attribute 'get'"))
  end.

Fixpoint chars (s : string) : list json :=
  match s with
  | EmptyString => []
  | String c r => JStr (String c EmptyString) :: chars r
  end.

(** [for x in v]: the elements the loop visits. *)
Definition py_iter (v : json) : outcome (list json) :=
  match v with
  | JArr l => Ok l
  | JObj f => Ok (map JStr (dict_keys f))
  | JStr s => Ok (chars s)
  | _ => Raise (Exn TypeError
                  ("'" ++ type_name v ++ "' object is not iterable"))
  end.

(** ** Subprocesses *)

(** What one [readline()] on a server's stdout, bounded by [wait_for], can
    give: nothing in time, end of stream ([b'']), bytes that do not decode
    or parse, a line holding one JSON value, or a line longer than the
    limit of the stream reader (64 KiB, [create_subprocess_exec] being called
    without [limit]), on which [readline] raises ValueError.  [Garbage] and
    [Json] stand for lines within that limit. *)
Inductive line :=
| Timeout
| Eof
| Garbage
| Json (v : json)
| Oversized.

(** What the child does on [terminate()] followed by [wait()]. *)
Inductive term_behaviour :=
| TermExits (rc : Z)
| TermRaises (e : exn)
| TermIgnored.

Record process := mkProcess {
  pid : Z;
  stdin_open : bool;
  stdin_log : list json;          (* messages written, oldest first *)
  stdout_script : list line;      (* what the child will answer *)
  returncode : option Z;
  on_terminate : term_behaviour
}.

Record MCPServerConfig := mkConfig {
  name : string;
  command : string;
  args : list string;
  env : option (dict string);
  cwd : option string
}.

(** ** The client and the world it runs in *)

Record SimpleMCPClient := mkClient {
  servers : dict MCPServerConfig;
  processes : dict nat;           (* server name to process handle *)
  tools_cache : dict (list json);
  request_id : Z
}.

(** The keyword arguments of the call of [litellm.acompletion] (lines
    100-108). *)
Record llm_request := mkRequest {
  req_model : string;
  req_api_key : option string;
  req_base_url : option string;
  req_messages : list (string * string);   (* role, content *)
  req_tools : list json;
  req_temperature : Q;
  req_max_tokens : Z
}.

Record world := mkWorld {
  client : SimpleMCPClient;
  heap : list process;
  llm_requests : list llm_request     (* calls made to the collaborator *)
}.

Definition M (A : Type) := world -> outcome A * world.

Definition ret {A} (a : A) : M A := fun w => (Ok a, w).
Definition raise {A} (e : exn) : M A := fun w => (Raise e, w).
Definition lift {A} (o : outcome A) : M A := fun w => (o, w).

Definition bind {A B} (m : M A) (k : A -> M B) : M B :=
  fun w =>
    match m w with
    | (Ok a, w') => k a w'
    | (Raise e, w') => (Raise e, w')
    | (Hang, w') => (Hang, w')
    end.

(** [try: m  except Exception as e: h e].  State changes made before the
    exception stay. *)
Definition try_except {A} (m : M A) (h : exn -> M A) : M A :=
  fun w =>
    match m w with
    | (Raise e, w') => h e w'
    | r => r
    end.

Declare Scope py_scope.
Delimit Scope py_scope with py.
Notation "x <- m ;; k" := (bind m (fun x => k))
  (at level 61, m at next level, right associativity) : py_scope.
Notation "m ;; k" := (bind m (fun _ => k))
  (at level 61, right associativity) : py_scope.
Local Open Scope py_scope.

Definition get_client : M SimpleMCPClient := fun w => (Ok (client w), w).

Definition set_client (c : SimpleMCPClient) : M unit :=
  fun w => (Ok tt, mkWorld c (heap w) (llm_requests w)).

Definition set_processes (c : SimpleMCPClient) (p : dict nat) :=
  mkClient (servers c) p (tools_cache c) (request_id c).

Definition set_tools_cache (c : SimpleMCPClient) (t : dict (list json)) :=
  mkClient (servers c) (processes c) t (request_id c).

Definition set_request_id (c : SimpleMCPClient) (n : Z) :=
  mkClient (servers c) (processes c) (tools_cache c) n.

(** ** [SimpleMCPClient] *)

Definition _next_request_id : M Z :=
  fun w =>
    let c := client w in
    let n := (request_id c + 1)%Z in
    (Ok n, mkWorld (set_request_id c n) (heap w) (llm_requests w)).

Fixpoint heap_set (hp : list process) (h : nat) (p : process) : list process :=
  match hp, h with
  | [], _ => []
  | _ :: r, O => p :: r
  | q :: r, S h' => q :: heap_set r h' p
  end.

(** Run a method of the process object behind handle [h]. *)
Definition with_process {A} (h : nat) (f : process -> outcome A * process)
  : M A :=
  fun w =>
    match nth_error (heap w) h with
    | None => (Raise (Exn OSError "no such process"), w)
    | Some p =>
        let (r, p') := f p in
        (r, mkWorld (client w) (heap_set (heap w) h p') (llm_requests w))
    end.

(** [process.stdin.write(json.dumps(msg) + "\n")] then [drain()]. *)
Definition stdin_send (msg : json) (p : process) : outcome unit * process :=
  if stdin_open p
  then (Ok tt,
        mkProcess (pid p) (stdin_open p) (stdin_log p ++ [msg])
                  (stdout_script p) (returncode p) (on_terminate p))
  else (Raise (Exn OSError "Connection lost"), p).

Definition set_script (p : process) (s : list line) : process :=
  mkProcess (pid p) (stdin_open p) (stdin_log p) s (returncode p)
            (on_terminate p).

(** [await asyncio.wait_for(process.stdout.readline(), timeout=5.0)]. *)
Definition stdout_readline (p : process) : outcome line * process :=
  match stdout_script p with
  | [] => (Raise (Exn TimeoutError EmptyString), p)
  | Timeout :: r => (Raise (Exn TimeoutError EmptyString), set_script p r)
  | Eof :: _ => (Ok Eof, p)
  | Oversized :: r =>
      (Raise (Exn ValueError
                "Separator is found, but chunk is longer than limit"),
       set_script p r)
  | l :: r => (Ok l, set_script p r)
  end.

(** [json.loads(response_data.decode().strip())]. *)
Definition json_loads (l : line) : outcome json :=
  match l with
  | Json v => Ok v
  | _ => Raise (Exn JSONDecodeError "Expecting value: line 1 column 1 (char 0)")
  end.

Definition init_message (rid : Z) : json :=
  JObj [("jsonrpc", JStr "2.0");
        ("id", JNum rid);
        ("method", JStr "initialize");
        ("params",
         JObj [("protocolVersion", JStr "2024-11-05");
               ("capabilities",
                JObj [("experimental", JObj []); ("sampling", JObj [])]);
               ("clientInfo",
                JObj [("name", JStr "simple-mcp-client");
                      ("version", JStr "1.0.0")])])].

Definition initialized_message : json :=
  JObj [("jsonrpc", JStr "2.0"); ("method", JStr "notifications/initialized")].

Definition tools_message (rid : Z) : json :=
  JObj [("jsonrpc", JStr "2.0"); ("id", JNum rid); ("method", JStr "tools/list")].

(** The dict appended for one raw [tool] (lines 217-224). *)
Definition openai_tool (tool : json) : outcome json :=
  obind (py_getitem tool "name") (fun n =>
  obind (py_get tool "description" (JStr EmptyString)) (fun d =>
  obind (py_get tool "inputSchema" (JObj [])) (fun p =>
  Ok (JObj [("type", JStr "function");
            ("function",
             JObj [("name", n); ("description", d); ("parameters", p)])])))).

(** The loop [for tool in tools_list: openai_tools.append(...)], started with
    [openai_tools] holding [acc]. *)
Fixpoint convert_loop (acc : list json) (todo : list json)
  : outcome (list json) :=
  match todo with
  | [] => Ok acc
  | tool :: r => obind (openai_tool tool) (fun t => convert_loop (acc ++ [t]) r)
  end.

Definition convert_tools (tools_list : json) : outcome (list json) :=
  obind (py_iter tools_list) (convert_loop []).

Definition store_tools (server_name : string) (tools : list json) : M unit :=
  fun w =>
    let c := client w in
    (Ok tt,
     mkWorld (set_tools_cache c (dict_set (tools_cache c) server_name tools))
             (heap w) (llm_requests w)).

Definition store_process (server_name : string) (h : nat) : M unit :=
  fun w =>
    let c := client w in
    (Ok tt,
     mkWorld (set_processes c (dict_set (processes c) server_name h))
             (heap w) (llm_requests w)).

(** [self.processes[server_name]]. *)
Definition lookup_process (server_name : string) : M nat :=
  fun w =>
    match dict_get (processes (client w)) server_name with
    | Some h => (Ok h, w)
    | None => (Raise (Exn KeyError ("'" ++ server_name ++ "'")), w)
    end.

Definition _load_tools (server_name : string) : M unit :=
  try_except
    (process <- lookup_process server_name ;;
     rid <- _next_request_id ;;
     with_process process (stdin_send (tools_message rid)) ;;
     response_data <- with_process process stdout_readline ;;
     match response_data with
     | Eof => store_tools server_name []
     | _ =>
         response_json <- lift (json_loads response_data) ;;
         has_result <- lift (py_contains "result" response_json) ;;
         has_tools <-
           (if has_result : bool
            then lift (obind (py_getitem response_json "result")
                             (py_contains "tools"))
            else ret false) ;;
         if has_tools : bool
         then
           tools_list <- lift (obind (py_getitem response_json "result")
                                     (fun r => py_getitem r "tools")) ;;
           openai_tools <- lift (convert_tools tools_list) ;;
           store_tools server_name openai_tools
         else store_tools server_name []
     end)
    (fun _ => store_tools server_name []).

Section Client.

(** [asyncio.create_subprocess_exec] for a server configuration: the child
    it starts, or the exception it raises. *)
Variable create_subprocess_exec : MCPServerConfig -> outcome process.

Definition spawn (cfg : MCPServerConfig) : M nat :=
  fun w =>
    match create_subprocess_exec cfg with
    | Ok p =>
        (Ok (length (heap w)),
         mkWorld (client w) (heap w ++ [p]) (llm_requests w))
    | Raise e => (Raise e, w)
    | Hang => (Hang, w)
    end.

Definition connect_to_server (server_name : string) : M bool :=
  c <- get_client ;;
  match dict_get (servers c) server_name with
  | None => ret false
  | Some server_config =>
      try_except
        (process <- spawn server_config ;;
         rid <- _next_request_id ;;
         with_process process (stdin_send (init_message rid)) ;;
         response_data <- with_process process stdout_readline ;;
         match response_data with
         | Eof => ret false
         | _ =>
             response_json <- lift (json_loads response_data) ;;
             has_result <- lift (py_contains "result" response_json) ;;
             if negb has_result
             then ret false
             else
               with_process process (stdin_send initialized_message) ;;
               store_process server_name process ;;
               _load_tools server_name ;;
               ret true
         end)
        (fun _ => ret false)
  end.

End Client.

(** [get_all_tools]: the sub-catalogs concatenated in the order of
    [self.tools_cache]. *)
Definition get_all_tools (c : SimpleMCPClient) : list json :=
  concat (dict_values (tools_cache c)).

Definition set_returncode (p : process) (rc : option Z) : process :=
  mkProcess (pid p) (stdin_open p) (stdin_log p) (stdout_script p) rc
            (on_terminate p).

(** [process.terminate()] then [await process.wait()]. *)
Definition terminate_and_wait (p : process) : outcome unit * process :=
  match on_terminate p with
  | TermExits rc => (Ok tt, set_returncode p (Some rc))
  | TermRaises e => (Raise e, p)
  | TermIgnored => (Hang, p)
  end.

(** The body of the loop of [cleanup] (lines 266-268). *)
Definition terminate_if_running (p : process) : outcome unit * process :=
  match returncode p with
  | None => terminate_and_wait p
  | Some _ => (Ok tt, p)
  end.

Fixpoint cleanup_loop (items : list (string * nat)) : M unit :=
  match items with
  | [] => ret tt
  | (_, process) :: r =>
      with_process process terminate_if_running ;;
      cleanup_loop r
  end.

Definition cleanup : M unit :=
  c <- get_client ;; cleanup_loop (processes c).

(** ** [LiteLLMMCPService] *)

(** Python objects other than JSON data: what [_extract_text_from_result]
    inspects with [hasattr] and [isinstance]. *)
Inductive pyval :=
| PNone
| PStr (s : string)
| PList (items : list pyval)
| PObj (attrs : dict pyval).

(** [getattr(v, a)] for the attribute names looked up here ([content],
    [type], [text]): built-in [str], [list] and [None] have none of them. *)
Definition py_getattr (v : pyval) (a : string) : option pyval :=
  match v with
  | PObj attrs => dict_get attrs a
  | _ => None
  end.

Definition pyval_truthy (v : pyval) : bool :=
  match v with
  | PNone => false
  | PStr s => negb (String.eqb s EmptyString)
  | PList l => match l with [] => false | _ => true end
  | PObj _ => true
  end.

(** [a or b]. *)
Definition py_or (a b : pyval) : pyval := if pyval_truthy a then a else b.

Record ToolCallResult := mkResult {
  success : bool;
  content : pyval;
  error : option string;
  tool_name : option string;
  server_name : option string
}.

(** [tool_call.function.name]. *)
Record tool_call := mkToolCall { function_name : string }.

(** [message.tool_calls]; [None] when the attribute is missing or None. *)
Record message := mkMessage { tool_calls : option (list tool_call) }.

(** What [litellm.acompletion] does: it returns a response, of which the
    code reads [choices], or it raises. *)
Inductive llm_outcome :=
| Completion (choices : list message)
| LLMRaises (e : exn).

(** The loop over [call_result.content] when it is a list; an [item.text]
    that is missing raises AttributeError, which the enclosing handler turns
    into None. *)
Fixpoint first_text (items : list pyval) : pyval :=
  match items with
  | [] => PNone
  | item :: r =>
      match py_getattr item "type" with
      | Some (PStr t) =>
          if String.eqb t "text"
          then match py_getattr item "text" with
               | Some x => x
               | None => PNone
               end
          else first_text r
      | _ => first_text r
      end
  end.

Definition _extract_text_from_result (call_result : pyval) : pyval :=
  match py_getattr call_result "content" with
  | Some c =>
      if pyval_truthy c
      then match c with
           | PList items => first_text items
           | _ =>
               match py_getattr c "text" with
               | Some x => x
               | None =>
                   match c with
                   | PStr _ => c
                   | _ => PNone
                   end
               end
           end
      else PNone
  | None => PNone
  end.

Fixpoint resolve_loop (tool_name : string) (tools : list json) : outcome json :=
  match tools with
  | [] => Ok JNull
  | tool :: r =>
      obind (py_get tool "function" (JObj [])) (fun f =>
      obind (py_get f "name" JNull) (fun n =>
      if json_eq_str n tool_name
      then py_get tool "server_name" JNull
      else resolve_loop tool_name r))
  end.

Definition _extract_server_name_from_tool (tc : tool_call) (tools : list json)
  : outcome json :=
  resolve_loop (function_name tc) tools.

(** [v in d] for a dict with str keys, giving the key found: lists and dicts
    are unhashable, everything else that is not a str equals no key. *)
Definition py_key_in {V} (v : json) (d : dict V) : outcome (option string) :=
  match v with
  | JStr s => Ok (if dict_mem d s then Some s else None)
  | JArr _ | JObj _ =>
      Raise (Exn TypeError ("unhashable type: '" ++ type_name v ++ "'"))
  | _ => Ok None
  end.

Definition nl : string := String (ascii_of_nat 10) EmptyString.

Fixpoint join (sep : string) (l : list string) : string :=
  match l with
  | [] => EmptyString
  | [x] => x
  | x :: r => x ++ sep ++ join sep r
  end.

Definition prompt_head : string :=
  "You are an AI assistant that can use MCP (Model Context Protocol) tools to help process and enhance user input."
  ++ nl ++ nl ++ "Available tools:" ++ nl.

Definition prompt_tail : string :=
  nl ++ nl ++
  "When the user provides input, analyze if any of these tools would be helpful for processing, enhancing, or responding to their request. If so, call the appropriate tool. If not, simply acknowledge their input."
  ++ nl ++ nl ++
  "Focus on being helpful and only use tools when they would genuinely improve the response or fulfill the user's request.".

Section Service.

(** [repr] of a list or a dict, which [str] falls back on. *)
Variable container_repr : json -> string.

(** The external LLM collaborator, [litellm.acompletion]. *)
Variable acompletion : llm_request -> llm_outcome.

(** The console: whether the encoder of [sys.stdout] accepts a text that a
    message interpolates (a transcript read from a command line can hold
    what no encoder accepts), and the UnicodeEncodeError that [print]
    raises when it does not.  The literal text of the messages is taken to
    be accepted: a console that refuses it refuses every message of the
    program. *)
Variable accepts : string -> bool.
Variable encode_error : string -> exn.

(** [str(v)], as an f-string field formats it. *)
Definition py_str (v : json) : string :=
  match v with
  | JNull => "None"
  | JBool true => "True"
  | JBool false => "False"
  | JNum z => NilZero.string_of_int (Z.to_int z)
  | JStr s => s
  | _ => container_repr v
  end.

Definition tool_description (tool : json) : outcome string :=
  obind (py_get tool "server_name" (JStr "unknown")) (fun sn =>
  obind (py_get tool "function" (JObj [])) (fun f1 =>
  obind (py_get f1 "name" (JStr "unknown")) (fun tn =>
  obind (py_get tool "function" (JObj [])) (fun f2 =>
  obind (py_get f2 "description" (JStr "No description")) (fun d =>
  Ok ("- " ++ py_str sn ++ ":" ++ py_str tn ++ " - " ++ py_str d)))))).

Fixpoint tool_descriptions (tools : list json) : outcome (list string) :=
  match tools with
  | [] => Ok []
  | tool :: r =>
      obind (tool_description tool) (fun d =>
      obind (tool_descriptions r) (fun ds => Ok (d :: ds)))
  end.

Definition _create_system_prompt (tools : list json) : outcome string :=
  obind (tool_descriptions tools) (fun ds =>
  Ok (prompt_head ++ join nl ds ++ prompt_tail)).

Definition call_llm (req : llm_request) : M (list message) :=
  fun w =>
    (match acompletion req with
     | Completion choices => Ok choices
     | LLMRaises e => Raise e
     end,
     mkWorld (client w) (heap w) (llm_requests w ++ [req])).

(** [print(text)] where [text] interpolates the given values: it raises
    when the console cannot encode one of them. *)
Definition print_values (values : list string) : M unit :=
  fun w =>
    match find (fun v => negb (accepts v)) values with
    | Some v => (Raise (encode_error v), w)
    | None => (Ok tt, w)
    end.

(** The body of the [try] in [process_transcript_with_llm]. *)
Definition process_body (transcript model : string)
  (api_key base_url : option string) : M ToolCallResult :=
  print_values [model] ;;                           (* line 75 *)
  print_values [] ;;                                (* line 76: a length *)
  print_values [substring 0 100 transcript] ;;      (* line 77 *)
  c <- get_client ;;
  let tools := get_all_tools c in
  match tools with
  | [] =>
      print_values [] ;;                            (* line 83: two counts *)
      ret (mkResult false (PStr transcript)
                    (Some "No MCP tools available") None None)
  | _ =>
      print_values [] ;;                            (* line 90: a count *)
      system_prompt <- lift (_create_system_prompt tools) ;;
      let messages := [("system", system_prompt); ("user", transcript)] in
      llm_response <-
        call_llm (mkRequest model api_key base_url messages tools
                            (1 # 10) 1000) ;;
      msg <- lift (match llm_response with
                   | [] => Raise (Exn IndexError "list index out of range")
                   | m :: _ => Ok m
                   end) ;;
      match tool_calls msg with
      | None | Some [] =>
          ret (mkResult true (PStr transcript) None None None)
      | Some (tc :: _) =>
          sn <- lift (_extract_server_name_from_tool tc tools) ;;
          live <- (if py_truthy sn
                   then lift (py_key_in sn (processes c))
                   else ret None) ;;
          match live with
          | None =>
              ret (mkResult false (PStr transcript)
                     (Some ("Server '" ++ py_str sn
                            ++ "' not available for tool call"))
                     None None)
          | Some s =>
              let call_result :=
                "Tool call detected: " ++ function_name tc in
              let result_text :=
                _extract_text_from_result (PStr call_result) in
              ret (mkResult true (py_or result_text (PStr transcript))
                     None (Some (function_name tc)) (Some s))
          end
      end
  end.

(** The handler prints the exception (line 147) before it returns. *)
Definition process_transcript_with_llm (transcript model : string)
  (api_key base_url : option string) : M ToolCallResult :=
  try_except (process_body transcript model api_key base_url)
    (fun e =>
       print_values [exn_str e] ;;
       ret (mkResult false (PStr transcript) (Some (exn_str e)) None None)).

End Service.

(** * Vocabulary of the properties *)

(** The ids handed out when the connections named in [sched] ask for one
    each, in that order: every element of [sched] is one call of
    [_next_request_id] made on behalf of that connection. *)
Fixpoint issue (sched : list string) (w : world) : list (string * Z) :=
  match sched with
  | [] => []
  | s :: r =>
      match _next_request_id w with
      | (Ok n, w') => (s, n) :: issue r w'
      | (_, w') => issue r w'
      end
  end.

Definition ids_of (s : string) (log : list (string * Z)) : list Z :=
  map snd (filter (fun e => String.eqb (fst e) s) log).

Definition only (s : string) (sched : list string) : list string :=
  filter (fun x => String.eqb x s) sched.

(** A raw entry without a [name]: an object that has no such key, or a value
    that is no object at all. *)
Definition lacks_name (raw : json) : bool :=
  match raw with
  | JObj f => negb (dict_mem f "name")
  | _ => true
  end.

(** The name under which [_extract_server_name_from_tool] looks an entry up. *)
Definition entry_name (t : json) : outcome json :=
  obind (py_get t "function" (JObj [])) (fun f => py_get f "name" JNull).

(** A handshake answer that is a JSON object without [result], a JSON
    number, boolean or null, bytes that do not parse, end of stream, or no
    answer in time. *)
Definition rejected_reply (l : line) : bool :=
  match l with
  | Json (JObj f) => negb (dict_mem f "result")
  | Json (JArr _) | Json (JStr _) => false
  | _ => true
  end.

(** A response that is a JSON object with a [result] field. *)
Definition has_result_field (v : json) : bool :=
  match v with
  | JObj f => dict_mem f "result"
  | _ => false
  end.

(** An entry that [_load_tools] built from some raw declaration. *)
Definition converted (t : json) : Prop := exists raw, openai_tool raw = Ok t.

Definition plain_catalog (c : SimpleMCPClient) : Prop :=
  Forall (Forall converted) (dict_values (tools_cache c)).

(** The process behind handle [h] has exited. *)
Definition exited (w : world) (h : nat) : bool :=
  match nth_error (heap w) h with
  | Some p => match returncode p with Some _ => true | None => false end
  | None => false
  end.

(** The process behind handle [h] has exited, or exits when terminated. *)
Definition exits_on_terminate (w : world) (h : nat) : bool :=
  match nth_error (heap w) h with
  | Some p =>
      match returncode p, on_terminate p with
      | Some _, _ => true
      | None, TermExits _ => true
      | None, _ => false
      end
  | None => false
  end.

(** The request the collaborator receives. *)
Definition request_for (transcript model : string)
  (api_key base_url : option string) (prompt : string) (tools : list json)
  : llm_request :=
  mkRequest model api_key base_url
            [("system", prompt); ("user", transcript)] tools (1 # 10) 1000.

Section Failures.

Variable container_repr : json -> string.
Variable acompletion : llm_request -> llm_outcome.
Variable accepts : string -> bool.
Variable encode_error : string -> exn.

Abbreviation body :=
  (process_body container_repr acompletion accepts encode_error).
Abbreviation prompt_of := (_create_system_prompt container_repr).

(** The failures that can arise inside the call. *)
Inductive failure_arises (transcript model : string)
  (api_key base_url : option string) (w : world) : Prop :=
| exception_raised (e : exn) :
    fst (body transcript model api_key base_url w) = Raise e ->
    failure_arises transcript model api_key base_url w
| collaborator_error (prompt : string) (e : exn) :
    get_all_tools (client w) <> [] ->
    prompt_of (get_all_tools (client w)) = Ok prompt ->
    acompletion (request_for transcript model api_key base_url prompt
                   (get_all_tools (client w))) = LLMRaises e ->
    failure_arises transcript model api_key base_url w
| unresolved_server (prompt : string) (msg : message)
    (choices : list message) (tc : tool_call) (calls : list tool_call)
    (sn : json) :
    get_all_tools (client w) <> [] ->
    prompt_of (get_all_tools (client w)) = Ok prompt ->
    acompletion (request_for transcript model api_key base_url prompt
                   (get_all_tools (client w))) = Completion (msg :: choices) ->
    tool_calls msg = Some (tc :: calls) ->
    _extract_server_name_from_tool tc (get_all_tools (client w)) = Ok sn ->
    py_truthy sn = false \/ py_key_in sn (processes (client w)) = Ok None ->
    failure_arises transcript model api_key base_url w.

End Failures.

(** A client just created, with the server definitions [srv] loaded. *)
Definition fresh (srv : dict MCPServerConfig) : world :=
  mkWorld (mkClient srv [] [] 0) [] [].

Section Reachability.

Variable create_subprocess_exec : MCPServerConfig -> outcome process.

(** The worlds a client gets to by connection attempts made one after the
    other, each started once the one before has returned, starting with no
    process and no tool. *)
Inductive reachable : world -> Prop :=
| reachable_fresh srv : reachable (fresh srv)
| reachable_connect s w :
    reachable w ->
    reachable (snd (connect_to_server create_subprocess_exec s w)).

End Reachability.

(** ** Example worlds *)

Definition no_repr : json -> string := fun _ => EmptyString.

(** A console that prints every text. *)
Definition prints_all : string -> bool := fun _ => true.

(** A console that refuses the texts holding character 255, which stands
    here for a character no encoder accepts (the lone surrogate that a
    byte 0xFF of the command line becomes). *)
Definition refuses_255 : string -> bool :=
  fun s => negb (is_substring (String (ascii_of_nat 255) EmptyString) s).

(** The exception [print] raises on a text it cannot encode. *)
Definition codec_error : string -> exn :=
  fun _ => Exn UnicodeEncodeError
               "'utf-8' codec can't encode character: surrogates not allowed".

(** A text that cannot be printed. *)
Definition unprintable (prefix : string) : string :=
  prefix ++ String (ascii_of_nat 255) EmptyString.

Definition cfg_s1 : MCPServerConfig := mkConfig "s1" "mcp-echo" [] None None.

Definition cfg_s2 : MCPServerConfig := mkConfig "s2" "mcp-echo" [] None None.

Definition init_ok : line :=
  Json (JObj [("jsonrpc", JStr "2.0"); ("id", JNum 1); ("result", JObj [])]).

Definition tools_reply (tools : list json) : line :=
  Json (JObj [("jsonrpc", JStr "2.0"); ("id", JNum 2);
              ("result", JObj [("tools", JArr tools)])]).

Definition raw_tool (n d : string) : json :=
  JObj [("name", JStr n); ("description", JStr d); ("inputSchema", JObj [])].

Definition entry (n d : string) : json :=
  JObj [("type", JStr "function");
        ("function",
         JObj [("name", JStr n); ("description", JStr d);
               ("parameters", JObj [])])].

Definition child (script : list line) : process :=
  mkProcess 4242 true [] script None (TermExits 0).

(** A world in which "s1" is live and about to answer [tools/list]. *)
Definition live_s1 (script : list line) : world :=
  mkWorld (mkClient [("s1", cfg_s1)] [("s1", 0%nat)] [] 1) [child script] [].

Definition spawn_child (script : list line) : MCPServerConfig -> outcome process :=
  fun _ => Ok (child script).

(** The world after a successful connection to "s1", which declares the
    tool "echo". *)
Definition echo_run : outcome bool * world :=
  connect_to_server
    (spawn_child [init_ok; tools_reply [raw_tool "echo" "x"]])
    "s1" (fresh [("s1", cfg_s1)]).

(** Two live servers; terminating the first one fails. *)
Definition stubborn_pair : world :=
  mkWorld (mkClient [] [("s1", 0%nat); ("s2", 1%nat)] [] 4)
          [mkProcess 4242 true [] [] None
             (TermRaises (Exn OSError "[Errno 1] Operation not permitted"));
           mkProcess 4243 true [] [] None (TermExits 0)]
          [].

(** * More of the client: configuration and connection state *)

(** Every handle of the process table refers to a process on the heap. *)
Definition handles_valid (w : world) : bool :=
  forallb (fun e => Nat.ltb (snd e) (length (heap w))) (processes (client w)).

(** A catalog entry that has a function name, other than [n]. *)
Definition named_otherwise (n : string) (tool : json) : Prop :=
  exists g y,
    py_get tool "function" (JObj []) = Ok g /\
    py_get g "name" JNull = Ok y /\
    json_eq_str y n = false.

(** An item of a tool result whose [type] is "text". *)
Definition is_text_item (item : pyval) : bool :=
  match py_getattr item "type" with
  | Some (PStr t) => String.eqb t "text"
  | _ => false
  end.

(** ** [load_servers_config] *)

(** What the configuration path gives when read: no such file, a file that
    cannot be opened or does not parse ([open] or [json.load] raises), or a
    parsed JSON value. *)
Inductive config_file :=
| NoFile
| Unreadable (e : exn)
| FileJson (config_data : json).

(** An [MCPServerConfig] as [load_servers_config] builds it: the fields hold
    the JSON values of the file as they are; nothing checks them against the
    annotations of the dataclass. *)
Record LoadedServerConfig := mkLoaded {
  loaded_name : string;
  loaded_command : json;
  loaded_args : json;
  loaded_env : json;
  loaded_cwd : json
}.

(** [MCPServerConfig(name=server_name, command=server_config['command'],
    args=server_config.get('args', []), env=server_config.get('env'),
    cwd=server_config.get('cwd'))]. *)
Definition loaded_server (server_name : string) (server_config : json)
  : outcome LoadedServerConfig :=
  obind (py_getitem server_config "command") (fun c =>
  obind (py_get server_config "args" (JArr [])) (fun a =>
  obind (py_get server_config "env" JNull) (fun e =>
  obind (py_get server_config "cwd" JNull) (fun d =>
  Ok (mkLoaded server_name c a e d))))).

(** [v.items()]. *)
Definition py_items (v : json) : outcome (list (string * json)) :=
  match v with
  | JObj f => Ok f
  | _ => Raise (Exn AttributeError
                  ("'" ++ type_name v ++ "' object has no attribute 'items'"))
  end.

(** The loop of lines 72-79 over the items still to visit, with
    [self.servers] threaded through; an exception leaves what was stored
    before it. *)
Fixpoint load_loop (srv : dict LoadedServerConfig)
  (items : list (string * json)) : outcome unit * dict LoadedServerConfig :=
  match items with
  | [] => (Ok tt, srv)
  | (server_name, server_config) :: r =>
      match loaded_server server_name server_config with
      | Ok c => load_loop (dict_set srv server_name c) r
      | Raise e => (Raise e, srv)
      | Hang => (Hang, srv)
      end
  end.

(** [load_servers_config], lines 60-84 (the [try] statement):
    [self.servers] after it, given what it was before and what the
    configuration path holds.  Every exception raised inside the [try] is
    caught by its handler. *)
Definition load_servers_config (file : config_file)
  (srv : dict LoadedServerConfig) : dict LoadedServerConfig :=
  match file with
  | NoFile => srv
  | Unreadable _ => srv
  | FileJson config_data =>
      match py_contains "mcpServers" config_data with
      | Ok true =>
          match obind (py_getitem config_data "mcpServers") py_items with
          | Ok items => snd (load_loop srv items)
          | _ => srv
          end
      | _ => srv
      end
  end.

(** A server definition that is a JSON object with a [command]. *)
Definition has_command (server_config : json) : bool :=
  match server_config with
  | JObj f => dict_mem f "command"
  | _ => false
  end.

(** The configuration file whose [mcpServers] holds the given definitions. *)
Definition servers_file (items : list (string * json)) : config_file :=
  FileJson (JObj [("mcpServers", JObj items)]).

(** ** Connection attempts running together *)

(** [process.stdin.write(...)]: nothing is raised here; what is written to
    a closed stream is lost. *)
Definition stdin_write (msg : json) (p : process) : outcome unit * process :=
  (Ok tt,
   if stdin_open p
   then mkProcess (pid p) (stdin_open p) (stdin_log p ++ [msg])
                  (stdout_script p) (returncode p) (on_terminate p)
   else p).

(** [await process.stdin.drain()]. *)
Definition stdin_drain (p : process) : outcome unit * process :=
  (if stdin_open p then Ok tt else Raise (Exn OSError "Connection lost"), p).

(** Lines 207-233 of [_load_tools]: what is made of the answer read. *)
Definition store_answer (server_name : string) (response_data : line)
  : M unit :=
  match response_data with
  | Eof => store_tools server_name []
  | _ =>
      response_json <- lift (json_loads response_data) ;;
      has_result <- lift (py_contains "result" response_json) ;;
      has_tools <-
        (if has_result : bool
         then lift (obind (py_getitem response_json "result")
                          (py_contains "tools"))
         else ret false) ;;
      if has_tools : bool
      then
        tools_list <- lift (obind (py_getitem response_json "result")
                                  (fun r => py_getitem r "tools")) ;;
        openai_tools <- lift (convert_tools tools_list) ;;
        store_tools server_name openai_tools
      else store_tools server_name []
  end.

(** A call of [connect_to_server] as [asyncio.gather] holds it: not yet
    started, suspended at one of its [await]s (the line is given), or
    finished with the value it returned or the exception it raised. *)
Inductive attempt :=
| NotStarted (server_name : string)
| Spawning (server_name : string) (server_config : MCPServerConfig) (* 109 *)
| InitWritten (server_name : string) (process : nat)                 (* 142 *)
| AwaitingInit (server_name : string) (process : nat)                (* 145 *)
| NotifWritten (server_name : string) (process : nat)                (* 171 *)
| ToolsWritten (server_name : string) (process : nat)                (* 199 *)
| AwaitingTools (server_name : string) (process : nat)               (* 202 *)
| Settled (result : outcome bool).

Section Attempts.

Variable create_subprocess_exec : MCPServerConfig -> outcome process.
Variable accepts : string -> bool.
Variable encode_error : string -> exn.

(** The handler of [connect_to_server] (lines 181-183), and that of
    [_load_tools] (lines 235-237), after which [connect_to_server] returns
    True. *)
Definition connect_failed : exn -> M attempt :=
  fun _ => ret (Settled (Ok false)).

Definition no_tools (server_name : string) : exn -> M attempt :=
  fun _ => store_tools server_name [] ;; ret (Settled (Ok true)).

(** The code an attempt runs when it is resumed, up to its next [await] or
    to its end; none when it has finished.  The first step prints the server
    name (line 88), before the [try]. *)
Definition resume (a : attempt) : option (M attempt) :=
  match a with
  | NotStarted server_name =>
      Some (fun w =>
              if accepts server_name
              then match dict_get (servers (client w)) server_name with
                   | None => (Ok (Settled (Ok false)), w)
                   | Some server_config =>
                       (Ok (Spawning server_name server_config), w)
                   end
              else (Ok (Settled (Raise (encode_error server_name))), w))
  | Spawning server_name server_config =>
      Some (try_except
              (process <- spawn create_subprocess_exec server_config ;;
               rid <- _next_request_id ;;
               with_process process (stdin_write (init_message rid)) ;;
               ret (InitWritten server_name process))
              connect_failed)
  | InitWritten server_name process =>
      Some (try_except
              (with_process process stdin_drain ;;
               ret (AwaitingInit server_name process))
              connect_failed)
  | AwaitingInit server_name process =>
      Some (try_except
              (response_data <- with_process process stdout_readline ;;
               match response_data with
               | Eof => ret (Settled (Ok false))
               | _ =>
                   response_json <- lift (json_loads response_data) ;;
                   has_result <- lift (py_contains "result" response_json) ;;
                   if negb has_result
                   then ret (Settled (Ok false))
                   else
                     with_process process (stdin_write initialized_message) ;;
                     ret (NotifWritten server_name process)
               end)
              connect_failed)
  | NotifWritten server_name process =>
      Some (try_except
              (with_process process stdin_drain ;;
               store_process server_name process ;;
               try_except
                 (process' <- lookup_process server_name ;;
                  rid <- _next_request_id ;;
                  with_process process' (stdin_write (tools_message rid)) ;;
                  ret (ToolsWritten server_name process'))
                 (no_tools server_name))
              connect_failed)
  | ToolsWritten server_name process =>
      Some (try_except
              (with_process process stdin_drain ;;
               ret (AwaitingTools server_name process))
              (no_tools server_name))
  | AwaitingTools server_name process =>
      Some (try_except
              (response_data <- with_process process stdout_readline ;;
               store_answer server_name response_data ;;
               ret (Settled (Ok true)))
              (no_tools server_name))
  | Settled _ => None
  end.

(** One resumption.  There is none of an attempt that has finished, nor of
    one whose process creation never returns. *)
Definition attempt_step (a : attempt) (w : world) : option (attempt * world) :=
  match resume a with
  | Some m =>
      match m w with
      | (Ok a', w') => Some (a', w')
      | _ => None
      end
  | None => None
  end.

(** One attempt run with no other in between, for at most [fuel]
    resumptions. *)
Fixpoint run_alone (fuel : nat) (a : attempt) (w : world) : attempt * world :=
  match fuel with
  | O => (a, w)
  | S n =>
      match attempt_step a w with
      | Some (a', w') => run_alone n a' w'
      | None => (a, w)
      end
  end.

(** [asyncio.gather] over the attempts (line 251): the event loop resumes
    any attempt that can go on, one at a time, in any order.  An [await]
    that does not suspend is two resumptions of the same attempt in a
    row. *)
Inductive gather_step : list attempt * world -> list attempt * world -> Prop :=
| gather_resume before a after w a' w' :
    attempt_step a w = Some (a', w') ->
    gather_step ((before ++ a :: after)%list, w)
                ((before ++ a' :: after)%list, w').

(** [gather_run n st st']: [n] resumptions lead from [st] to [st']. *)
Inductive gather_run
  : nat -> list attempt * world -> list attempt * world -> Prop :=
| gather_here st : gather_run 0 st st
| gather_on n st1 st2 st3 :
    gather_step st1 st2 -> gather_run n st2 st3 -> gather_run (S n) st1 st3.

(** The event loop resuming the attempt at position [i]. *)
Fixpoint resume_nth (i : nat) (tasks : list attempt) (w : world)
  : option (list attempt * world) :=
  match tasks, i with
  | [], _ => None
  | a :: r, O =>
      match attempt_step a w with
      | Some (a', w') => Some (a' :: r, w')
      | None => None
      end
  | a :: r, S i' =>
      match resume_nth i' r w with
      | Some (r', w') => Some (a :: r', w')
      | None => None
      end
  end.

(** The run in which the attempts are resumed in the order [sched] gives;
    none when [sched] names an attempt that cannot go on. *)
Fixpoint gather_schedule (sched : list nat) (st : list attempt * world)
  : option (list attempt * world) :=
  match sched with
  | [] => Some st
  | i :: r =>
      match resume_nth i (fst st) (snd st) with
      | Some st' => gather_schedule r st'
      | None => None
      end
  end.

(** How an attempt may end: with True or False, or with the exception of
    the console that cannot print its server name. *)
Definition ends_well (a : attempt) : Prop :=
  match a with
  | Settled (Ok _) => True
  | Settled (Raise e) =>
      exists s, accepts s = false /\ e = encode_error s
  | Settled Hang => False
  | _ => True
  end.

End Attempts.

(** The steps an attempt has at most before it ends. *)
Definition steps_left (a : attempt) : nat :=
  match a with
  | NotStarted _ => 7
  | Spawning _ _ => 6
  | InitWritten _ _ => 5
  | AwaitingInit _ _ => 4
  | NotifWritten _ _ => 3
  | ToolsWritten _ _ => 2
  | AwaitingTools _ _ => 1
  | Settled _ => 0
  end.

(** The tasks [connect_to_all_servers] hands to [asyncio.gather] (lines
    246-249): one attempt per configured server. *)
Definition connection_tasks (w : world) : list attempt :=
  map NotStarted (dict_keys (servers (client w))).

(** What holds of the server of an attempt, by the point it has reached:
    past the start it is a configured one, and while its tools are loaded
    it is in the process table. *)
Definition attempt_ok (c : SimpleMCPClient) (a : attempt) : Prop :=
  match a with
  | NotStarted _ | Settled _ => True
  | Spawning s _ | InitWritten s _ | AwaitingInit s _ | NotifWritten s _ =>
      In s (dict_keys (servers c))
  | ToolsWritten s _ | AwaitingTools s _ =>
      In s (dict_keys (servers c)) /\ In s (dict_keys (processes c))
  end.

(** The tables of the client agree: the server definitions are [srv], every
    server of the process table is a configured one, every server with a
    sub-catalog is in the process table, no server is listed twice, and the
    catalog holds converted entries only. *)
Definition tables_ok (srv : dict MCPServerConfig) (c : SimpleMCPClient)
  : Prop :=
  servers c = srv /\
  incl (dict_keys (processes c)) (dict_keys srv) /\
  incl (dict_keys (tools_cache c)) (dict_keys (processes c)) /\
  NoDup (dict_keys (processes c)) /\
  NoDup (dict_keys (tools_cache c)) /\
  plain_catalog c.

Definition settled (a : attempt) : bool :=
  match a with Settled _ => true | _ => false end.

(** ** More example worlds *)

(** "s1" live with the tool "echo" already loaded, about to be asked for its
    tools again. *)
Definition loaded_s1 (script : list line) : world :=
  mkWorld (mkClient [("s1", cfg_s1)] [("s1", 0%nat)]
                    [("s1", [entry "echo" "x"])] 2)
          [child script] [].

(** A process creation that fails: the executable does not exist. *)
Definition spawn_fails : MCPServerConfig -> outcome process :=
  fun _ => Raise (Exn OSError "[Errno 2] No such file or directory").

(** A handshake answer carrying a JSON-RPC error. *)
Definition init_error : line :=
  Json (JObj [("jsonrpc", JStr "2.0"); ("id", JNum 1);
              ("error", JObj [("code", JNum (-32600));
                              ("message", JStr "Invalid Request")])]).

(** A table of one live server and a heap of two processes. *)
Definition one_tabled_of_two : world :=
  mkWorld (mkClient [] [("s1", 0%nat)] [] 2) [child []; child []] [].

(** A catalog entry that, unlike those of [_load_tools], names its server. *)
Definition owned_entry (srv n : string) : json :=
  JObj [("type", JStr "function");
        ("function", JObj [("name", JStr n)]);
        ("server_name", JStr srv)].

(** A collaborator that asks for the tool "echo", and one that answers in
    plain text. *)
Definition asks_for_echo : llm_request -> llm_outcome :=
  fun _ => Completion [mkMessage (Some [mkToolCall "echo"])].

Definition answers_plainly : llm_request -> llm_outcome :=
  fun _ => Completion [mkMessage None].

(** Items of a tool result. *)
Definition image_item : pyval := PObj [("type", PStr "image")].

Definition text_item (t : string) : pyval :=
  PObj [("type", PStr "text"); ("text", PStr t)].

(** Server definitions of a configuration file. *)
Definition def_echo : json :=
  JObj [("command", JStr "mcp-echo"); ("args", JArr [JStr "--stdio"])].

Definition def_bare : json := JObj [("command", JStr "mcp-files")].

Definition def_no_command : json := JObj [("args", JArr [])].

(** "s1" live with its tool loaded, "s2" configured and not yet connected. *)
Definition s1_live_s2_pending : world :=
  mkWorld (mkClient [("s1", cfg_s1); ("s2", cfg_s2)] [("s1", 0%nat)]
                    [("s1", [entry "echo" "x"])] 2)
          [child []] [].


(** Two configured servers, none connected. *)
Definition two_servers : world := fresh [("s1", cfg_s1); ("s2", cfg_s2)].

(** A child that answers the handshake and declares the tool "echo". *)
Definition echo_child : MCPServerConfig -> outcome process :=
  spawn_child [init_ok; tools_reply [raw_tool "echo" "x"]].

(** An order in which the event loop may resume two attempts, seven times
    each. *)
Definition interleaved : list nat :=
  [0; 1; 1; 0; 0; 1; 0; 1; 1; 0; 0; 1; 1; 0]%nat.

(** * Properties *)

(** ** Dictionaries and the process heap *)

Lemma dict_get_set_same {V} (d : dict V) k v :
  dict_get (dict_set d k v) k = Some v.
Proof.
  induction d as [|[k' v'] r IH]; simpl.
  - now rewrite String.eqb_refl.
  - destruct (String.eqb k' k) eqn:E; simpl.
    + now rewrite String.eqb_refl.
    + now rewrite E.
Qed.

Lemma dict_get_set_other {V} (d : dict V) k k' v :
  k <> k' -> dict_get (dict_set d k v) k' = dict_get d k'.
Proof.
  intros Hne. induction d as [|[k0 v0] r IH]; simpl.
  - destruct (String.eqb k k') eqn:E; [apply String.eqb_eq in E; tauto|easy].
  - destruct (String.eqb k0 k) eqn:E; simpl.
    + apply String.eqb_eq in E; subst k0.
      destruct (String.eqb k k') eqn:E'; [apply String.eqb_eq in E'; tauto|easy].
    + now rewrite IH.
Qed.

Lemma nth_error_heap_set_same hp h p q :
  nth_error hp h = Some p -> nth_error (heap_set hp h q) h = Some q.
Proof.
  revert h; induction hp as [|x r IH]; intros [|h] H; simpl in *;
    try discriminate; auto.
Qed.

Lemma nth_error_heap_set_other hp h h' q :
  h <> h' -> nth_error (heap_set hp h q) h' = nth_error hp h'.
Proof.
  revert h h'; induction hp as [|x r IH]; intros [|h] [|h'] H; simpl;
    try reflexivity; try congruence.
  apply IH; congruence.
Qed.

Lemma heap_set_id hp h p : nth_error hp h = Some p -> heap_set hp h p = hp.
Proof.
  revert h; induction hp as [|x r IH]; intros [|h] H; simpl in *;
    try discriminate.
  - congruence.
  - f_equal; auto.
Qed.

Lemma heap_set_length hp h p : length (heap_set hp h p) = length hp.
Proof.
  revert h; induction hp as [|x r IH]; intros [|h]; simpl; auto.
Qed.

(** ** Request ids *)

Lemma issue_above sched : forall w,
  Forall (fun e => (request_id (client w) < snd e)%Z) (issue sched w).
Proof.
  induction sched as [|s r IH]; intros w; simpl; constructor.
  - simpl. lia.
  - eapply Forall_impl; [|apply IH]. simpl. intros e He. lia.
Qed.

Lemma issue_sorted sched : forall w,
  StronglySorted (fun a b => (snd a < snd b)%Z) (issue sched w).
Proof.
  induction sched as [|s r IH]; intros w; simpl; constructor.
  - apply IH.
  - eapply Forall_impl; [|apply issue_above]. simpl. intros e He. lia.
Qed.

Lemma ids_of_sorted s log :
  StronglySorted (fun a b => (snd a < snd b)%Z) log ->
  StronglySorted Z.lt (ids_of s log).
Proof.
  unfold ids_of. induction 1 as [|a l Hl IH Ha]; simpl.
  - constructor.
  - destruct (String.eqb (fst a) s); simpl; auto.
    constructor; auto.
    apply Forall_forall. intros z Hz.
    apply in_map_iff in Hz as [e [<- He]].
    apply filter_In in He as [He _].
    rewrite Forall_forall in Ha. auto.
Qed.

Lemma sorted_lt_NoDup l : StronglySorted Z.lt l -> NoDup l.
Proof.
  induction 1 as [|a l Hl IH Ha]; constructor; auto.
  intros Hin. rewrite Forall_forall in Ha. specialize (Ha _ Hin). lia.
Qed.

(** C3, as the code has it: the client holds one counter for all its
    connections.  Whatever the interleaving of the connections' requests,
    the ids the client issues are strictly increasing and above the counter's
    starting value, so the ids any one connection sends are strictly
    increasing and never repeated. *)
Theorem request_ids_strictly_increasing :
  forall (sched : list string) (s : string) (w : world),
    StronglySorted (fun a b => (snd a < snd b)%Z) (issue sched w) /\
    StronglySorted Z.lt (ids_of s (issue sched w)) /\
    NoDup (ids_of s (issue sched w)) /\
    Forall (fun n => (request_id (client w) < n)%Z) (ids_of s (issue sched w)).
Proof.
  intros sched s w.
  pose proof (issue_sorted sched w) as Hs.
  pose proof (ids_of_sorted s _ Hs) as Hi.
  repeat split; auto using sorted_lt_NoDup.
  apply Forall_forall. intros z Hz.
  unfold ids_of in Hz. apply in_map_iff in Hz as [e [<- He]].
  apply filter_In in He as [He _].
  pose proof (issue_above sched w) as Ha. rewrite Forall_forall in Ha. auto.
Qed.

(** C3 as stated fails: were the counter scoped to a connection alone, the
    ids a connection sends would depend on its own requests only.  With
    connection "a" asking first, connection "b" is handed 2; asking alone it
    is handed 1. *)
Lemma request_ids_not_scoped_per_connection :
  ~ (forall (sched : list string) (s : string) (w : world),
       ids_of s (issue sched w) = ids_of s (issue (only s sched) w)).
Proof.
  intros H. specialize (H ["a"; "b"] "b" (fresh [])).
  vm_compute in H. discriminate H.
Qed.

(** The same on the code path that sends the ids, for two calls of
    [connect_to_server] made one after the other, the second once the first
    has returned: "s1" is sent ids 1 and 2, and "s2" is sent 3 and 4. *)
Example second_connection_continues_the_count :
  map stdin_log
      (heap (snd (connect_to_server (spawn_child [init_ok; tools_reply []])
                    "s2"
                    (snd (connect_to_server
                            (spawn_child [init_ok; tools_reply []])
                            "s1" (fresh [("s1", cfg_s1); ("s2", cfg_s2)]))))))
  = [[init_message 1; initialized_message; tools_message 2];
     [init_message 3; initialized_message; tools_message 4]].
Proof. vm_compute. reflexivity. Qed.

(** ** Loading a server's tools *)

Lemma openai_tool_not_hang tool : openai_tool tool <> Hang.
Proof.
  unfold openai_tool, py_getitem, py_get.
  destruct tool; simpl; try discriminate.
  repeat (match goal with
          | |- context [dict_get ?f ?k] => destruct (dict_get f k)
          end; simpl); discriminate.
Qed.

Lemma convert_loop_not_hang todo : forall acc, convert_loop acc todo <> Hang.
Proof.
  induction todo as [|t r IH]; intros acc; simpl; [discriminate|].
  destruct (openai_tool t) eqn:E; simpl; try discriminate.
  - apply IH.
  - now apply openai_tool_not_hang in E.
Qed.

Lemma convert_tools_not_hang tl : convert_tools tl <> Hang.
Proof.
  unfold convert_tools, py_iter.
  destruct tl; simpl; try discriminate; apply convert_loop_not_hang.
Qed.

(** The loop keeps what was appended before it and appends one converted
    dict per raw entry, in the order of the raw list. *)
Lemma convert_loop_ok todo : forall acc out,
  convert_loop acc todo = Ok out ->
  exists ts, out = (acc ++ ts)%list /\
             Forall2 (fun raw t => openai_tool raw = Ok t) todo ts.
Proof.
  induction todo as [|t r IH]; intros acc out H; simpl in H.
  - inversion H; subst. exists []. rewrite app_nil_r. auto.
  - destruct (openai_tool t) as [e| |] eqn:E; simpl in H; try discriminate.
    apply IH in H as [ts [-> Hts]].
    exists (e :: ts). rewrite <- app_assoc. simpl. auto.
Qed.

Lemma convert_loop_raises todo : forall acc,
  Exists (fun raw => exists e, openai_tool raw = Raise e) todo ->
  exists e, convert_loop acc todo = Raise e.
Proof.
  induction todo as [|t r IH]; intros acc H; inversion H; subst; simpl.
  - destruct H1 as [e ->]. simpl. eauto.
  - destruct (openai_tool t) as [x|e|] eqn:E; simpl; eauto.
    now apply openai_tool_not_hang in E.
Qed.

Lemma lacks_name_raises raw :
  lacks_name raw = true -> exists e, openai_tool raw = Raise e.
Proof.
  unfold lacks_name, openai_tool, py_getitem, dict_mem.
  destruct raw; simpl; eauto.
  destruct (dict_get fields "name"); simpl; [discriminate|eauto].
Qed.

Ltac run_step :=
  match goal with
  | H : ?x = _ |- context [?x] => rewrite H
  | |- context [nth_error (heap_set _ ?h _) ?h] =>
      erewrite nth_error_heap_set_same by eauto
  | |- _ => progress cbn [fst snd client heap llm_requests processes
                          tools_cache servers request_id stdin_open
                          stdout_script stdin_log returncode on_terminate pid
                          set_script set_tools_cache set_processes
                          set_request_id negb obind]
  end.

(** What [_load_tools] does when the server answers the [tools/list] request
    with a JSON object whose [result] holds [tools]. *)
Lemma load_tools_reply s w h p fields rfields tl rest :
  dict_get (processes (client w)) s = Some h ->
  nth_error (heap w) h = Some p ->
  stdout_script p = Json (JObj fields) :: rest ->
  dict_get fields "result" = Some (JObj rfields) ->
  dict_get rfields "tools" = Some tl ->
  exists w',
    _load_tools s w = (Ok tt, w') /\
    processes (client w') = processes (client w) /\
    tools_cache (client w') =
      dict_set (tools_cache (client w)) s
        (if stdin_open p
         then match convert_tools tl with Ok out => out | _ => [] end
         else []).
Proof.
  intros Hs Hh Hscr Hres Htl.
  unfold _load_tools, try_except, bind, lookup_process, _next_request_id,
    with_process, stdin_send, stdout_readline, store_tools, lift, ret,
    json_loads, py_contains, py_getitem, dict_mem.
  repeat run_step.
  destruct (stdin_open p) eqn:Hopen; repeat run_step.
  - destruct (convert_tools tl) as [out|e|] eqn:Hc; repeat run_step;
      [| |now apply convert_tools_not_hang in Hc];
      eexists; repeat split; reflexivity.
  - eexists; repeat split; reflexivity.
Qed.

Ltac run_all :=
  repeat first
    [ run_step
    | match goal with
      | |- context [match ?x with _ => _ end] =>
          lazymatch x with
          | context [match _ with _ => _ end] => fail
          | _ => destruct x eqn:?
          end
      end ].

(** The operations on JSON values return or raise; they never wait. *)
Ltac no_hang :=
  exfalso;
  match goal with
  | H : convert_tools _ = Hang |- _ => exact (convert_tools_not_hang _ H)
  | H : _ = Hang |- _ =>
      revert H; unfold obind, py_contains, py_getitem, py_get;
      repeat match goal with
             | |- context [match ?x with _ => _ end] =>
                 lazymatch x with
                 | context [match _ with _ => _ end] => fail
                 | _ => destruct x; simpl
                 end
             end;
      discriminate
  end.

(** [_load_tools] always returns normally, touches neither the process table
    nor the server definitions, and stores for the server either nothing or
    the conversion of a whole tool list. *)
Lemma load_tools_total s w :
  exists ts w',
    _load_tools s w = (Ok tt, w') /\
    servers (client w') = servers (client w) /\
    processes (client w') = processes (client w) /\
    tools_cache (client w') = dict_set (tools_cache (client w)) s ts /\
    (ts = [] \/ exists tl, convert_tools tl = Ok ts).
Proof.
  unfold _load_tools, try_except, bind, lookup_process, _next_request_id,
    with_process, stdin_send, stdout_readline, store_tools, lift, ret,
    json_loads.
  run_all;
    try (match goal with
         | H : (_, _) = (_, _) |- _ => inversion H; subst; clear H
         end);
    try discriminate.
  all: try (eexists; eexists; repeat split; try reflexivity; eauto; fail).
  all: no_hang.
Qed.

Lemma lacks_name_false_converts raw :
  lacks_name raw = false -> exists t, openai_tool raw = Ok t.
Proof.
  unfold lacks_name, openai_tool, py_getitem, py_get, dict_mem.
  destruct raw; try discriminate.
  destruct (dict_get fields "name"); simpl; [intros _|discriminate].
  destruct (dict_get fields "description"), (dict_get fields "inputSchema");
    simpl; eauto.
Qed.

Lemma convert_loop_all_named todo : forall acc,
  forallb (fun raw => negb (lacks_name raw)) todo = true ->
  exists out, convert_loop acc todo = Ok out.
Proof.
  induction todo as [|t r IH]; intros acc H; simpl in *; eauto.
  apply andb_true_iff in H as [Ht Hr].
  apply negb_true_iff in Ht.
  destruct (lacks_name_false_converts _ Ht) as [x ->]. simpl. auto.
Qed.

(** C7: when the [tools/list] response of a live server carries a list of
    raw entries one of which has no [name], [_load_tools] returns normally
    and leaves that server with an empty sub-catalog: none of the entries is
    kept, valid ones before the bad one included.  The sub-catalogs of the
    other servers are as they were. *)
Theorem malformed_tool_discards_batch :
  forall s w h p fields rfields l rest,
    dict_get (processes (client w)) s = Some h ->
    nth_error (heap w) h = Some p ->
    stdout_script p = Json (JObj fields) :: rest ->
    dict_get fields "result" = Some (JObj rfields) ->
    dict_get rfields "tools" = Some (JArr l) ->
    existsb lacks_name l = true ->
    exists w',
      _load_tools s w = (Ok tt, w') /\
      dict_get (tools_cache (client w')) s = Some [] /\
      (forall s', s <> s' ->
         dict_get (tools_cache (client w')) s' =
         dict_get (tools_cache (client w)) s').
Proof.
  intros s w h p fields rfields l rest Hs Hh Hscr Hres Htl Hbad.
  destruct (load_tools_reply s w h p fields rfields (JArr l) rest)
    as [w' [Hrun [_ Hcache]]]; auto.
  assert (Hraise : exists e, convert_tools (JArr l) = Raise e).
  { unfold convert_tools, py_iter; simpl.
    apply convert_loop_raises.
    apply existsb_exists in Hbad as [raw [Hin Hraw]].
    apply Exists_exists. exists raw. split; auto.
    now apply lacks_name_raises. }
  destruct Hraise as [e He]. rewrite He in Hcache.
  assert (Hempty : tools_cache (client w') =
                   dict_set (tools_cache (client w)) s [])
    by (destruct (stdin_open p); exact Hcache).
  exists w'. rewrite Hempty. split; [exact Hrun|]. split.
  - apply dict_get_set_same.
  - intros s' Hne. now apply dict_get_set_other.
Qed.

(** C4, as the code has it: when the answer to [tools/list] is a line
    within the limit of the stream reader and every raw entry of its list
    has a [name], the server's sub-catalog holds one converted entry per raw
    entry, in the declared order and with no entry dropped, repeated names
    included.  (A line over the limit is an [Oversized] one: [readline]
    raises and the sub-catalog is left empty.) *)
Theorem load_keeps_every_declaration :
  forall s w h p fields rfields l rest,
    dict_get (processes (client w)) s = Some h ->
    nth_error (heap w) h = Some p ->
    stdin_open p = true ->
    stdout_script p = Json (JObj fields) :: rest ->
    dict_get fields "result" = Some (JObj rfields) ->
    dict_get rfields "tools" = Some (JArr l) ->
    forallb (fun raw => negb (lacks_name raw)) l = true ->
    exists w' out,
      _load_tools s w = (Ok tt, w') /\
      dict_get (tools_cache (client w')) s = Some out /\
      Forall2 (fun raw t => openai_tool raw = Ok t) l out /\
      length out = length l.
Proof.
  intros s w h p fields rfields l rest Hs Hh Hopen Hscr Hres Htl Hall.
  destruct (load_tools_reply s w h p fields rfields (JArr l) rest)
    as [w' [Hrun [_ Hcache]]]; auto.
  rewrite Hopen in Hcache.
  destruct (convert_loop_all_named l [] Hall) as [out Hout].
  unfold convert_tools, py_iter in Hcache; simpl in Hcache.
  rewrite Hout in Hcache.
  apply convert_loop_ok in Hout as [ts [-> Hts]]. simpl in *.
  exists w', ts. rewrite Hcache. repeat split; auto.
  - apply dict_get_set_same.
  - symmetry. eapply Forall2_length; eauto.
Qed.

(** ** Repeated and nameless declarations *)

(** C4 as stated fails: a list that declares "a" twice leaves both
    declarations in the sub-catalog, the earlier one first. *)
Lemma duplicate_tool_names_kept :
  ~ (forall (s : string) (w : world) (ts : list json),
       dict_get (tools_cache (client (snd (_load_tools s w)))) s = Some ts ->
       NoDup (map entry_name ts)).
Proof.
  intros H.
  specialize (H "s1"
                (live_s1 [tools_reply [raw_tool "a" "first";
                                       raw_tool "a" "second"]])
                [entry "a" "first"; entry "a" "second"]).
  assert (Hn : NoDup (map entry_name [entry "a" "first"; entry "a" "second"]))
    by (apply H; vm_compute; reflexivity).
  inversion Hn as [|x l Hnotin _]; subst.
  apply Hnotin. left. reflexivity.
Qed.

(** Witness of [malformed_tool_discards_batch]: a valid entry followed by a
    nameless one. *)
Lemma malformed_tool_discards_batch_witness :
  exists w',
    _load_tools "s1"
      (live_s1 [tools_reply [raw_tool "ok" "fine";
                             JObj [("description", JStr "nameless")]]])
    = (Ok tt, w') /\
    dict_get (tools_cache (client w')) "s1" = Some [] /\
    (forall s', "s1" <> s' ->
       dict_get (tools_cache (client w')) s' =
       dict_get (tools_cache
                   (client
                      (live_s1 [tools_reply
                                  [raw_tool "ok" "fine";
                                   JObj [("description", JStr "nameless")]]])))
                s').
Proof.
  eapply (malformed_tool_discards_batch "s1" _ 0%nat); reflexivity.
Defined.

(** Witness of [load_keeps_every_declaration]: two declarations of "a". *)
Lemma load_keeps_every_declaration_witness :
  exists w' out,
    _load_tools "s1"
      (live_s1 [tools_reply [raw_tool "a" "first"; raw_tool "a" "second"]])
    = (Ok tt, w') /\
    dict_get (tools_cache (client w')) "s1" = Some out /\
    Forall2 (fun raw t => openai_tool raw = Ok t)
            [raw_tool "a" "first"; raw_tool "a" "second"] out /\
    length out = 2%nat.
Proof.
  eapply (load_keeps_every_declaration "s1" _ 0%nat); reflexivity.
Defined.

(** ** The handshake *)

Lemma nth_error_app_last {A} (l : list A) x :
  nth_error (l ++ [x]) (length l) = Some x.
Proof. induction l; simpl; auto. Qed.

Lemma heap_set_app_last hp p q :
  heap_set (hp ++ [p]) (length hp) q = (hp ++ [q])%list.
Proof. induction hp; simpl; [reflexivity|now f_equal]. Qed.

(** On such an answer [connect_to_server] returns False having sent the
    [initialize] request and nothing else: the process table and the tool
    cache are as before, and no [tools/list] request was written. *)
Lemma connect_rejected spawn_fn s w cfg p0 resp rest :
  dict_get (servers (client w)) s = Some cfg ->
  spawn_fn cfg = Ok p0 ->
  stdout_script p0 = resp :: rest ->
  rejected_reply resp = true ->
  exists w' p',
    connect_to_server spawn_fn s w = (Ok false, w') /\
    processes (client w') = processes (client w) /\
    tools_cache (client w') = tools_cache (client w) /\
    heap w' = (heap w ++ [p'])%list /\
    stdin_log p' =
      (if stdin_open p0
       then stdin_log p0 ++ [init_message (request_id (client w) + 1)]
       else stdin_log p0)%list.
Proof.
  intros Hs Hsp Hscr Hrej.
  unfold connect_to_server, try_except, bind, get_client, spawn,
    _next_request_id, with_process, stdin_send, stdout_readline, lift, ret,
    json_loads, py_contains.
  assert (Hres : forall f, resp = Json (JObj f) -> dict_mem f "result" = false).
  { intros f ->. simpl in Hrej. now apply negb_true_iff in Hrej. }
  repeat first [run_step | rewrite heap_set_app_last
               | rewrite nth_error_app_last].
  destruct (stdin_open p0) eqn:Hopen;
    repeat first [run_step | rewrite heap_set_app_last
                 | rewrite nth_error_app_last].
  - destruct resp as [| | |[]|]; try discriminate;
      repeat first [run_step | rewrite heap_set_app_last
                   | rewrite nth_error_app_last | erewrite Hres by eauto];
      do 2 eexists; repeat split; simpl; now rewrite ?Hopen.
  - do 2 eexists; repeat split; simpl; now rewrite ?Hopen.
Qed.

(** C8 at the failing input, a server that answers [initialize] with the
    JSON array holding the string "result" and then lists a tool: the
    answer has no [result] field, yet the membership test of line 157 is
    satisfied by the array element, so the server is stored in the process
    table, is sent [tools/list], and its tool enters the catalog. *)
Theorem handshake_array_reply_goes_live :
  let reply := JArr [JStr "result"] in
  let run :=
    connect_to_server
      (spawn_child [Json reply; tools_reply [raw_tool "echo" "x"]])
      "s1" (fresh [("s1", cfg_s1)]) in
  has_result_field reply = false /\
  fst run = Ok true /\
  dict_get (processes (client (snd run))) "s1" = Some 0%nat /\
  option_map stdin_log (nth_error (heap (snd run)) 0) =
    Some [init_message 1; initialized_message; tools_message 2] /\
  get_all_tools (client (snd run)) = [entry "echo" "x"].
Proof. vm_compute. repeat split. Qed.

(** ** Resolving the owner of a tool *)

Lemma openai_tool_no_server raw t default :
  openai_tool raw = Ok t -> py_get t "server_name" default = Ok default.
Proof.
  unfold openai_tool, py_getitem, py_get.
  destruct raw; simpl; try discriminate.
  destruct (dict_get fields "name"); simpl; try discriminate.
  destruct (dict_get fields "description"), (dict_get fields "inputSchema");
    simpl; intros H; inversion H; reflexivity.
Qed.

Lemma openai_tool_function raw t default :
  openai_tool raw = Ok t ->
  exists n d p,
    py_get t "function" default =
    Ok (JObj [("name", n); ("description", d); ("parameters", p)]).
Proof.
  unfold openai_tool, py_getitem, py_get.
  destruct raw; simpl; try discriminate.
  destruct (dict_get fields "name"); simpl; try discriminate.
  destruct (dict_get fields "description"), (dict_get fields "inputSchema");
    simpl; intros H; inversion H; simpl; eauto.
Qed.

(** No entry built by [_load_tools] has a [server_name] key, so the lookup
    gives None whether or not the name is found. *)
Lemma resolve_loop_converted tool_name tools :
  Forall converted tools -> resolve_loop tool_name tools = Ok JNull.
Proof.
  induction 1 as [|t r [raw Ht] _ IH]; simpl; [reflexivity|].
  destruct (openai_tool_function raw t (JObj []) Ht) as [n [d [p ->]]].
  simpl. destruct (json_eq_str n tool_name); [|exact IH].
  eapply openai_tool_no_server; eauto.
Qed.

(** C1 at the failing input, server "s1" live with the tool "echo": the
    catalog lists "echo", and resolving that name over the catalog gives
    None, not "s1". *)
Theorem resolve_owner_of_catalog_tool_is_none :
  fst echo_run = Ok true /\
  processes (client (snd echo_run)) = [("s1", 0%nat)] /\
  get_all_tools (client (snd echo_run)) = [entry "echo" "x"] /\
  map entry_name (get_all_tools (client (snd echo_run))) = [Ok (JStr "echo")] /\
  _extract_server_name_from_tool (mkToolCall "echo")
    (get_all_tools (client (snd echo_run))) = Ok JNull.
Proof. vm_compute. repeat split. Qed.

(** C2 at its own input: the list is normalised to one entry, held under
    "s1" with name "echo" and description "x", but the line of the system
    prompt that enumerates it reads "unknown:echo", and "s1:echo" occurs
    nowhere in the prompt. *)
Theorem echo_prompt_line_names_unknown_server :
  forall container_repr : json -> string,
    tools_cache (client (snd echo_run)) = [("s1", [entry "echo" "x"])] /\
    tool_descriptions container_repr (get_all_tools (client (snd echo_run)))
      = Ok ["- unknown:echo - x"] /\
    exists prompt,
      _create_system_prompt container_repr
        (get_all_tools (client (snd echo_run))) = Ok prompt /\
      is_substring "- unknown:echo - x" prompt = true /\
      is_substring "s1:echo" prompt = false.
Proof.
  intros repr. split; [vm_compute; reflexivity|].
  split; [vm_compute; reflexivity|].
  eexists. split; [vm_compute; reflexivity|].
  split; vm_compute; reflexivity.
Qed.

(** ** [process_transcript_with_llm] *)

Section Process.

Variable container_repr : json -> string.
Variable acompletion : llm_request -> llm_outcome.
Variable accepts : string -> bool.
Variable encode_error : string -> exn.

Abbreviation process :=
  (process_transcript_with_llm container_repr acompletion accepts
     encode_error).
Abbreviation body :=
  (process_body container_repr acompletion accepts encode_error).
Abbreviation prompt_of := (_create_system_prompt container_repr).
Abbreviation failure :=
  (failure_arises container_repr acompletion accepts encode_error).

(** The placeholder string of the unfinished tool execution yields no
    text, so [result_text or transcript] is the transcript. *)
Lemma stub_result_has_no_text (s transcript : string) :
  py_or (_extract_text_from_result (PStr s)) (PStr transcript)
  = PStr transcript.
Proof. reflexivity. Qed.

Lemma tool_descriptions_not_hang tools :
  tool_descriptions container_repr tools <> Hang.
Proof.
  induction tools as [|t r IH]; simpl; [discriminate|].
  destruct (tool_description container_repr t) eqn:E; simpl.
  - destruct (tool_descriptions container_repr r); simpl;
      try discriminate. tauto.
  - discriminate.
  - revert E. unfold tool_description. intros E. no_hang.
Qed.

Lemma prompt_not_hang tools : prompt_of tools <> Hang.
Proof.
  unfold _create_system_prompt.
  destruct (tool_descriptions container_repr tools) eqn:E; simpl;
    try discriminate.
  now apply tool_descriptions_not_hang in E.
Qed.

Lemma resolve_loop_not_hang n tools : resolve_loop n tools <> Hang.
Proof.
  induction tools as [|t r IH]; simpl; [discriminate|].
  destruct (py_get t "function" (JObj [])) as [f| |] eqn:E1; simpl;
    try discriminate; [|no_hang].
  destruct (py_get f "name" JNull) as [x| |] eqn:E2; simpl;
    try discriminate; [|no_hang].
  destruct (json_eq_str x n); auto.
  intros H. no_hang.
Qed.

Ltac unfold_process :=
  unfold process_transcript_with_llm, process_body, try_except, bind,
    get_client, call_llm, lift, ret, print_values,
    _extract_server_name_from_tool, request_for in *;
  cbn [find] in *.

Ltac no_wait :=
  exfalso;
  match goal with
  | H : _create_system_prompt _ _ = Hang |- _ => exact (prompt_not_hang _ H)
  | H : resolve_loop _ _ = Hang |- _ => exact (resolve_loop_not_hang _ _ H)
  | H : py_key_in ?v _ = Hang |- _ => destruct v; discriminate H
  end.

(** However the call ends it never waits for ever, it leaves the client and
    the processes as they were, and a result it returns carries the
    transcript as content. *)
Lemma process_frame transcript model api_key base_url w :
  client (snd (process transcript model api_key base_url w)) = client w /\
  heap (snd (process transcript model api_key base_url w)) = heap w /\
  fst (process transcript model api_key base_url w) <> Hang /\
  (forall r,
     fst (process transcript model api_key base_url w) = Ok r ->
     content r = PStr transcript).
Proof.
  unfold_process.
  run_all; cbn [fst snd client heap];
    try no_wait;
    (split; [reflexivity|]); (split; [reflexivity|]);
    (split; [discriminate|]);
    intros r Hr; inversion Hr; reflexivity.
Qed.

(** What the handler makes of the outcome of the body: a result of the
    body is returned as it is; an exception becomes a failure result when
    its text can be printed, and leaves the call as the exception of
    [print] when it cannot. *)
Lemma process_handles transcript model api_key base_url w :
  match fst (body transcript model api_key base_url w) with
  | Ok r => fst (process transcript model api_key base_url w) = Ok r
  | Raise e =>
      fst (process transcript model api_key base_url w) =
        if accepts (exn_str e)
        then Ok (mkResult false (PStr transcript) (Some (exn_str e))
                          None None)
        else Raise (encode_error (exn_str e))
  | Hang => True
  end.
Proof.
  unfold process_transcript_with_llm, try_except.
  destruct (body transcript model api_key base_url w) as [[r|e|] w1];
    cbn [fst]; auto.
  unfold bind, print_values, ret. cbn [find].
  destruct (accepts (exn_str e)); reflexivity.
Qed.

(** An exception leaves the call only through the [print] of the handler:
    the body raised, and the text of what it raised cannot be printed. *)
Lemma process_raises_only_from_handler transcript model api_key base_url w x :
  fst (process transcript model api_key base_url w) = Raise x ->
  exists e,
    fst (body transcript model api_key base_url w) = Raise e /\
    accepts (exn_str e) = false /\
    x = encode_error (exn_str e).
Proof.
  intros H.
  pose proof (process_handles transcript model api_key base_url w) as Hh.
  destruct (fst (body transcript model api_key base_url w)) as [r|e|] eqn:Hb.
  - congruence.
  - exists e. destruct (accepts (exn_str e)); [congruence|].
    split; [reflexivity|]. split; [reflexivity|]. congruence.
  - destruct (process_frame transcript model api_key base_url w)
      as [_ [_ [Hn _]]].
    exfalso. apply Hn. unfold process_transcript_with_llm, try_except.
    destruct (body transcript model api_key base_url w) as [o w1].
    simpl in Hb. now subst o.
Qed.

(** A failure arising inside the call, when the call returns, gives a result
    with [success] False and the transcript as content. *)
Lemma failures_degrade_when_printed transcript model api_key base_url w r :
  fst (process transcript model api_key base_url w) = Ok r ->
  failure transcript model api_key base_url w ->
  success r = false /\ content r = PStr transcript.
Proof.
  intros Hr Hf.
  destruct (process_frame transcript model api_key base_url w)
    as [_ [_ [_ Hc]]].
  split; [|now apply Hc].
  destruct Hf as [e He | prompt e Hne Hp Hllm
                  | prompt msg choices tc calls sn Hne Hp Hllm Hcalls Hsn Hun].
  - pose proof (process_handles transcript model api_key base_url w) as Hh.
    rewrite He in Hh. rewrite Hh in Hr.
    destruct (accepts (exn_str e)); inversion Hr; reflexivity.
  - revert Hr. unfold_process.
    run_all; cbn [fst snd]; intros Hr;
      try (inversion Hr; reflexivity); congruence.
  - revert Hr. unfold_process.
    destruct Hun as [Hf | Hk];
      run_all; cbn [fst snd]; intros Hr;
      try (inversion Hr; reflexivity); congruence.
Qed.

(** C10: every result the call returns, whatever the transcript, the state
    of the client, the console and the outcome of the collaborator (an
    exception, a response without choices, a plain message, a tool call that
    resolves or not), has the transcript itself as content; and the call
    does return a result whenever the text of an exception raised inside it
    can be printed by the handler. *)
Theorem content_is_always_the_transcript :
  forall (transcript model : string) (api_key base_url : option string)
         (w : world),
    (forall r,
       fst (process transcript model api_key base_url w) = Ok r ->
       content r = PStr transcript) /\
    ((forall e,
        fst (body transcript model api_key base_url w) = Raise e ->
        accepts (exn_str e) = true) ->
     exists r,
       fst (process transcript model api_key base_url w) = Ok r /\
       content r = PStr transcript).
Proof.
  intros transcript model api_key base_url w.
  destruct (process_frame transcript model api_key base_url w)
    as [_ [_ [Hn Hc]]].
  split; [exact Hc|]. intros Hprint.
  destruct (fst (process transcript model api_key base_url w))
    as [r|x|] eqn:Hrun.
  - exists r. auto.
  - apply process_raises_only_from_handler in Hrun
      as [e [He [Hacc _]]].
    rewrite (Hprint e He) in Hacc. discriminate.
  - tauto.
Qed.

(** C5, as the code has it: when the model name and the first hundred
    characters of the transcript can be printed and the catalog is empty,
    the call returns at once with [success] False, the transcript as
    content and the error text "No MCP tools available"; the world is
    unchanged, so the collaborator was not called. *)
Theorem empty_catalog_is_refused :
  forall (transcript model : string) (api_key base_url : option string)
         (w : world),
    accepts model = true ->
    accepts (substring 0 100 transcript) = true ->
    get_all_tools (client w) = [] ->
    process transcript model api_key base_url w =
      (Ok (mkResult false (PStr transcript)
                    (Some "No MCP tools available") None None), w) /\
    llm_requests (snd (process transcript model api_key base_url w))
      = llm_requests w.
Proof.
  intros transcript model api_key base_url w Hm Ht H.
  unfold_process. repeat run_step. split; reflexivity.
Qed.

End Process.

(** C5 as stated fails on the error text: on a console that prints
    everything, the code's message is "No MCP tools available". *)
Lemma empty_catalog_error_text_differs :
  ~ (forall (acompletion : llm_request -> llm_outcome)
            (transcript model : string) (w : world),
       get_all_tools (client w) = [] ->
       exists r,
         fst (process_transcript_with_llm no_repr acompletion prints_all
                codec_error transcript model None None w) = Ok r /\
         success r = false /\
         error r = Some "no tools available" /\
         content r = PStr transcript).
Proof.
  intros H.
  destruct (H (fun _ => Completion []) "hello" "gpt-4o-mini" (fresh [])
              eq_refl) as [r [Hr [_ [He _]]]].
  vm_compute in Hr. inversion Hr; subst r. discriminate He.
Qed.

(** Witness of [empty_catalog_is_refused]: a client with no server. *)
Lemma empty_catalog_is_refused_witness :
  process_transcript_with_llm no_repr (fun _ => Completion []) refuses_255
    codec_error "hello" "gpt-4o-mini" None None (fresh [])
  = (Ok (mkResult false (PStr "hello") (Some "No MCP tools available")
                  None None), fresh []) /\
  llm_requests
    (snd (process_transcript_with_llm no_repr (fun _ => Completion [])
            refuses_255 codec_error "hello" "gpt-4o-mini" None None
            (fresh []))) = llm_requests (fresh []).
Proof.
  apply (empty_catalog_is_refused no_repr (fun _ => Completion [])
           refuses_255 codec_error "hello" "gpt-4o-mini" None None
           (fresh [])); reflexivity.
Defined.

(** Witness of [content_is_always_the_transcript]: "s1" is live with
    "echo" and the collaborator raises an error whose text can be
    printed. *)
Lemma content_is_always_the_transcript_witness :
  exists r,
    fst (process_transcript_with_llm no_repr
           (fun _ => LLMRaises (Exn LLMError "rate limit exceeded"))
           refuses_255 codec_error "hello" "gpt-4o-mini" None None
           (snd echo_run)) = Ok r /\
    content r = PStr "hello".
Proof.
  destruct (content_is_always_the_transcript no_repr
              (fun _ => LLMRaises (Exn LLMError "rate limit exceeded"))
              refuses_255 codec_error "hello" "gpt-4o-mini" None None
              (snd echo_run)) as [_ H].
  apply H. intros e He. vm_compute in He. inversion He. reflexivity.
Defined.

(** C6 at the failing input, "s1" live with "echo" and a collaborator
    that raises an error whose text the console cannot encode: the
    transcript and the model name are printed, the body raises the
    collaborator's error, the handler's [print] of that error (line 147)
    raises in turn, and this exception leaves the call; no result is
    returned. *)
Theorem handler_print_failure_escapes :
  let e := Exn LLMError (unprintable "invalid api key ") in
  let run body_or_call :=
    fst (body_or_call no_repr (fun _ : llm_request => LLMRaises e)
           refuses_255 codec_error "hello" "gpt-4o-mini" None None
           (snd echo_run)) in
  refuses_255 "hello" = true /\
  refuses_255 "gpt-4o-mini" = true /\
  refuses_255 (exn_str e) = false /\
  run process_body = Raise e /\
  run process_transcript_with_llm = Raise (codec_error (exn_str e)).
Proof. vm_compute. repeat split. Qed.

(** ** [cleanup] *)

Lemma world_eta w : mkWorld (client w) (heap w) (llm_requests w) = w.
Proof. now destruct w. Qed.

(** One iteration of the loop on handle [h]: the client is not touched, and
    the heap changes at [h] only. *)
Lemma cleanup_step_frame h w r w' :
  with_process h terminate_if_running w = (r, w') ->
  client w' = client w /\
  forall h', h <> h' -> nth_error (heap w') h' = nth_error (heap w) h'.
Proof.
  unfold with_process.
  destruct (nth_error (heap w) h) as [p|].
  - destruct (terminate_if_running p) as [o p']. intros H; inversion H; subst.
    simpl. split; auto. intros h' Hne. now apply nth_error_heap_set_other.
  - intros H; inversion H; subst. auto.
Qed.

(** A process that has exited is left as it is by one iteration. *)
Lemma cleanup_step_exited h w r w' h' p :
  with_process h terminate_if_running w = (r, w') ->
  nth_error (heap w) h' = Some p -> returncode p <> None ->
  nth_error (heap w') h' = Some p.
Proof.
  intros Hrun Hp Hrc.
  destruct (Nat.eq_dec h h') as [<-|Hne].
  - revert Hrun. unfold with_process, terminate_if_running. rewrite Hp.
    destruct (returncode p); [|tauto].
    intros H; inversion H; subst. simpl.
    eapply nth_error_heap_set_same; eauto.
  - destruct (cleanup_step_frame _ _ _ _ Hrun) as [_ Hf].
    now rewrite Hf.
Qed.

Lemma cleanup_loop_client items : forall w r w',
  cleanup_loop items w = (r, w') -> client w' = client w.
Proof.
  induction items as [|[n h] rest IH]; intros w r w' H; simpl in H.
  - inversion H; auto.
  - unfold bind in H.
    destruct (with_process h terminate_if_running w) as [o w1] eqn:E.
    destruct (cleanup_step_frame _ _ _ _ E) as [Hc _].
    destruct o; try (inversion H; subst; exact Hc).
    apply IH in H. congruence.
Qed.

Lemma cleanup_loop_exited items : forall w r w' h p,
  cleanup_loop items w = (r, w') ->
  nth_error (heap w) h = Some p -> returncode p <> None ->
  nth_error (heap w') h = Some p.
Proof.
  induction items as [|[n h0] rest IH]; intros w r w' h p H Hp Hrc;
    simpl in H.
  - inversion H; subst; auto.
  - unfold bind in H.
    destruct (with_process h0 terminate_if_running w) as [o w1] eqn:E.
    pose proof (cleanup_step_exited _ _ _ _ _ _ E Hp Hrc) as Hp1.
    destruct o; try (inversion H; subst; exact Hp1).
    eapply IH; eauto.
Qed.

(** When one iteration returns normally, its process has exited. *)
Lemma cleanup_step_ok h w w' :
  with_process h terminate_if_running w = (Ok tt, w') -> exited w' h = true.
Proof.
  unfold with_process, terminate_if_running, terminate_and_wait, exited.
  destruct (nth_error (heap w) h) as [p|] eqn:Hp; [|discriminate].
  destruct (returncode p) eqn:Hrc.
  - intros H; inversion H; subst; simpl.
    erewrite nth_error_heap_set_same by eauto. now rewrite Hrc.
  - destruct (on_terminate p); intros H; inversion H; subst; simpl.
    erewrite nth_error_heap_set_same by eauto. reflexivity.
Qed.

Lemma exited_inv w h :
  exited w h = true ->
  exists p, nth_error (heap w) h = Some p /\ returncode p <> None.
Proof.
  unfold exited. destruct (nth_error (heap w) h) as [p|]; [|discriminate].
  destruct (returncode p) eqn:E; [|discriminate].
  intros _. exists p. split; congruence.
Qed.

Lemma cleanup_loop_ok_exited items : forall w w',
  cleanup_loop items w = (Ok tt, w') ->
  forallb (fun e => exited w' (snd e)) items = true.
Proof.
  induction items as [|[n h] rest IH]; intros w w' H; simpl in *; auto.
  unfold bind in H.
  destruct (with_process h terminate_if_running w) as [o w1] eqn:E.
  destruct o as [[]| |]; try discriminate.
  apply andb_true_iff. split; [|eapply IH; eauto].
  apply cleanup_step_ok in E.
  destruct (exited_inv _ _ E) as [p [Hp Hrc]].
  unfold exited. erewrite cleanup_loop_exited by eauto.
  destruct (returncode p); congruence.
Qed.

Lemma cleanup_loop_noop items : forall w,
  forallb (fun e => exited w (snd e)) items = true ->
  cleanup_loop items w = (Ok tt, w).
Proof.
  induction items as [|[n h] rest IH]; intros w H; simpl in *; auto.
  apply andb_true_iff in H as [Hh Hrest].
  destruct (exited_inv _ _ Hh) as [p [Hp Hrc]].
  unfold bind, with_process, terminate_if_running. rewrite Hp.
  destruct (returncode p); [|tauto].
  rewrite (heap_set_id _ _ _ Hp), world_eta. auto.
Qed.

Lemma cleanup_step_keeps_exits h w w' h' :
  with_process h terminate_if_running w = (Ok tt, w') ->
  exits_on_terminate w h' = true -> exits_on_terminate w' h' = true.
Proof.
  intros Hrun Hex.
  destruct (Nat.eq_dec h h') as [<-|Hne].
  - apply cleanup_step_ok in Hrun.
    unfold exited in Hrun. unfold exits_on_terminate.
    destruct (nth_error (heap w') h) as [p|]; [|discriminate].
    destruct (returncode p); [reflexivity|discriminate].
  - destruct (cleanup_step_frame _ _ _ _ Hrun) as [_ Hf].
    unfold exits_on_terminate in *. now rewrite Hf.
Qed.

Lemma cleanup_loop_completes items : forall w,
  forallb (fun e => exits_on_terminate w (snd e)) items = true ->
  exists w', cleanup_loop items w = (Ok tt, w').
Proof.
  induction items as [|[n h] rest IH]; intros w H; simpl in *.
  - eexists; reflexivity.
  - apply andb_true_iff in H as [Hh Hrest].
    assert (Hstep : exists w1,
               with_process h terminate_if_running w = (Ok tt, w1)).
    { unfold exits_on_terminate in Hh.
      unfold with_process, terminate_if_running, terminate_and_wait.
      destruct (nth_error (heap w) h) as [p|]; [|discriminate].
      destruct (returncode p); [eexists; reflexivity|].
      destruct (on_terminate p); try discriminate. eexists; reflexivity. }
    destruct Hstep as [w1 Hw1]. unfold bind. rewrite Hw1.
    apply IH. rewrite forallb_forall in *. intros e He.
    eapply cleanup_step_keeps_exits; eauto.
Qed.

(** C9, as the code has it: [cleanup] on an empty process table does
    nothing and returns; when every process of the table has exited or
    exits once terminated, [cleanup] returns normally, leaves the table as
    it is and every process of it exited; and a [cleanup] that follows one
    that returned normally changes nothing and returns normally. *)
Theorem cleanup_completes_when_children_exit :
  (forall w, processes (client w) = [] -> cleanup w = (Ok tt, w)) /\
  (forall w,
     forallb (fun e => exits_on_terminate w (snd e)) (processes (client w))
       = true ->
     exists w',
       cleanup w = (Ok tt, w') /\
       client w' = client w /\
       forallb (fun e => exited w' (snd e)) (processes (client w')) = true) /\
  (forall w w', cleanup w = (Ok tt, w') -> cleanup w' = (Ok tt, w')).
Proof.
  unfold cleanup, bind, get_client. repeat split.
  - intros w H. rewrite H. reflexivity.
  - intros w H.
    destruct (cleanup_loop_completes _ _ H) as [w' Hw'].
    pose proof (cleanup_loop_client _ _ _ _ Hw') as Hc.
    exists w'. rewrite Hc. repeat split; auto.
    eapply cleanup_loop_ok_exited; eauto.
  - intros w w' H.
    pose proof (cleanup_loop_client _ _ _ _ H) as Hc. rewrite Hc.
    apply cleanup_loop_noop. eapply cleanup_loop_ok_exited; eauto.
Qed.

(** C9 as stated fails: [cleanup] does not always return normally.  With
    the first [terminate()] raising, [cleanup] raises that exception and the
    second process, which would have exited, is never terminated. *)
Lemma cleanup_propagates_termination_failure :
  ~ (forall w,
       forallb (fun e => match nth_error (heap w) (snd e) with
                         | Some _ => true
                         | None => false
                         end) (processes (client w)) = true ->
       exists w',
         cleanup w = (Ok tt, w') /\
         forallb (fun e => exited w' (snd e)) (processes (client w')) = true).
Proof.
  intros H. destruct (H stubborn_pair eq_refl) as [w' [Hrun _]].
  vm_compute in Hrun. discriminate Hrun.
Qed.

(** Witness of [cleanup_completes_when_children_exit]: "s1" live with a
    child that exits on terminate; cleaning up twice. *)
Lemma cleanup_completes_when_children_exit_witness :
  exists w',
    cleanup (snd echo_run) = (Ok tt, w') /\
    cleanup w' = (Ok tt, w') /\
    forallb (fun e => exited w' (snd e)) (processes (client w')) = true.
Proof.
  destruct cleanup_completes_when_children_exit as [_ [Hall Htwice]].
  destruct (Hall (snd echo_run) eq_refl) as [w' [Hrun [_ Hex]]].
  exists w'. split; [exact Hrun|]. split; [|exact Hex].
  apply (Htwice (snd echo_run) w' Hrun).
Defined.

(** A child that ignores the termination request: [wait()] never returns,
    and neither does [cleanup]. *)
Example cleanup_hangs_on_unresponsive_child :
  fst (cleanup
         (mkWorld (mkClient [] [("s1", 0%nat)] [] 2)
                  [mkProcess 4242 true [] [] None TermIgnored] []))
  = Hang.
Proof. reflexivity. Qed.

(** ** The catalog never names a server *)

Lemma dict_set_values_Forall {V} (P : V -> Prop) d k v :
  Forall P (dict_values d) -> P v -> Forall P (dict_values (dict_set d k v)).
Proof.
  unfold dict_values. induction d as [|[k' v'] r IH]; simpl; intros Hd Hv.
  - auto.
  - inversion Hd; subst.
    destruct (String.eqb k' k); simpl; constructor; auto.
Qed.

Lemma convert_tools_converted tl ts :
  convert_tools tl = Ok ts -> Forall converted ts.
Proof.
  unfold convert_tools. destruct (py_iter tl) as [l| |]; simpl;
    try discriminate.
  intros H. apply convert_loop_ok in H as [ts' [-> Hts]]. simpl.
  clear -Hts. induction Hts; constructor; auto. now exists x.
Qed.

Lemma load_tools_plain s w :
  plain_catalog (client w) -> plain_catalog (client (snd (_load_tools s w))).
Proof.
  intros H.
  destruct (load_tools_total s w) as [ts [w' [-> [_ [_ [Hc Hts]]]]]].
  unfold plain_catalog. simpl. rewrite Hc.
  apply dict_set_values_Forall; auto.
  destruct Hts as [->|[tl Htl]]; [constructor|].
  eapply convert_tools_converted; eauto.
Qed.

Section Reachable.

Variable create_subprocess_exec : MCPServerConfig -> outcome process.

Lemma connect_plain s w :
  plain_catalog (client w) ->
  plain_catalog (client (snd (connect_to_server create_subprocess_exec s w))).
Proof.
  intros H.
  unfold connect_to_server, try_except, bind, get_client, spawn,
    _next_request_id, with_process, stdin_send, stdout_readline,
    store_process, lift, ret, json_loads.
  run_all;
    repeat match goal with
           | E : (_, _) = (_, _) |- _ => inversion E; subst; clear E
           end;
    try exact H;
    match goal with
    | E : _load_tools _ ?w0 = (_, ?w1) |- plain_catalog (client ?w1) =>
        let P := fresh in
        pose proof (load_tools_plain s w0 H) as P;
        rewrite E in P; exact P
    end.
Qed.

Abbreviation reachable_world := (reachable create_subprocess_exec).

Lemma reachable_plain w :
  reachable_world w -> plain_catalog (client w).
Proof.
  induction 1; [constructor|now apply connect_plain].
Qed.

(** Whatever servers were connected and whatever they declared, resolving
    any tool name over the aggregated catalog gives None. *)
Lemma resolve_on_reachable_is_none w tc :
  reachable_world w ->
  _extract_server_name_from_tool tc (get_all_tools (client w)) = Ok JNull.
Proof.
  intros Hr. apply resolve_loop_converted.
  apply reachable_plain in Hr. unfold plain_catalog in Hr.
  unfold get_all_tools. induction Hr; simpl; [constructor|].
  apply Forall_app; auto.
Qed.

End Reachable.

(** * Further properties of the client and the service *)

(** ** Connecting to a server *)

Lemma heap_set_twice hp h a b :
  heap_set (heap_set hp h a) h b = heap_set hp h b.
Proof.
  revert h; induction hp as [|x r IH]; intros [|h]; simpl; auto.
  now rewrite IH.
Qed.

(** With the server live and its stdin open, [_load_tools] writes exactly
    one message to it, the [tools/list] request carrying the next id, and
    touches no other process. *)
Lemma load_tools_sends s w h p :
  dict_get (processes (client w)) s = Some h ->
  nth_error (heap w) h = Some p ->
  stdin_open p = true ->
  exists w' p' ts,
    _load_tools s w = (Ok tt, w') /\
    servers (client w') = servers (client w) /\
    processes (client w') = processes (client w) /\
    tools_cache (client w') = dict_set (tools_cache (client w)) s ts /\
    request_id (client w') = (request_id (client w) + 1)%Z /\
    nth_error (heap w') h = Some p' /\
    stdin_log p' =
      (stdin_log p ++ [tools_message (request_id (client w) + 1)])%list /\
    returncode p' = returncode p /\
    on_terminate p' = on_terminate p /\
    length (heap w') = length (heap w) /\
    (forall h', h <> h' -> nth_error (heap w') h' = nth_error (heap w) h').
Proof.
  intros Hs Hh Hopen.
  unfold _load_tools, try_except, bind, lookup_process, _next_request_id,
    with_process, stdin_send, stdout_readline, store_tools, lift, ret,
    json_loads.
  run_all;
    repeat match goal with
           | E : (_, _) = (_, _) |- _ => inversion E; subst; clear E
           end;
    try discriminate; try no_hang.
  all: do 3 eexists; (split; [reflexivity|]);
    repeat (match goal with |- _ /\ _ => split end);
    (cbn [heap client request_id set_request_id set_tools_cache tools_cache
          stdin_log returncode on_terminate set_script];
     rewrite ?heap_set_twice, ?heap_set_length;
     first [ erewrite nth_error_heap_set_same by exact Hh; reflexivity
           | reflexivity
           | intros h' Hne; rewrite ?nth_error_heap_set_other by auto;
             reflexivity ]).
Qed.

Section Connecting.

Variable create_subprocess_exec : MCPServerConfig -> outcome process.

Abbreviation connect := (connect_to_server create_subprocess_exec).

(** The outcomes of a connection attempt, once the server name has been
    printed.  It does not raise.  It returns
    False with the process table and the tool cache as they were; or True
    with the new process stored under the server's name and a sub-catalog
    stored for it; or it waits for ever, which only a process creation that
    never returns can cause.  The server definitions are never changed. *)
Lemma connect_cases s w :
  servers (client (snd (connect s w))) = servers (client w) /\
  ((fst (connect s w) = Ok false /\
    processes (client (snd (connect s w))) = processes (client w) /\
    tools_cache (client (snd (connect s w))) = tools_cache (client w))
   \/
   (fst (connect s w) = Ok true /\
    dict_mem (servers (client w)) s = true /\
    processes (client (snd (connect s w))) =
      dict_set (processes (client w)) s (length (heap w)) /\
    exists ts,
      tools_cache (client (snd (connect s w))) =
        dict_set (tools_cache (client w)) s ts)
   \/
   (fst (connect s w) = Hang /\ snd (connect s w) = w /\
    exists cfg, dict_get (servers (client w)) s = Some cfg /\
                create_subprocess_exec cfg = Hang)).
Proof.
  unfold connect_to_server, try_except, bind, get_client, spawn,
    _next_request_id, with_process, stdin_send, stdout_readline,
    store_process, lift, ret, json_loads, dict_mem.
  run_all;
    repeat match goal with
           | E : (_, _) = (_, _) |- _ => inversion E; subst; clear E
           end;
    try (split; [reflexivity|left; repeat split; reflexivity]);
    try (split; [reflexivity|right; right; repeat split; eauto]);
    try subst;
    try (match goal with
         | H : py_contains _ _ = Hang |- _ => no_hang
         end);
    idtac.
  all: match goal with
       | E : _load_tools ?s0 ?w0 = (?o, ?w1) |- _ =>
           destruct (load_tools_total s0 w0)
             as [ts [w2 [Hrun [Hsrv [Hproc [Hcache _]]]]]];
           rewrite Hrun in E; inversion E; subst;
           cbn [snd fst client servers processes tools_cache set_processes
                set_request_id] in *
       end.
  split; [exact Hsrv|]. right; left.
  split; [reflexivity|]. split; [reflexivity|]. split; [exact Hproc|].
  exists ts; exact Hcache.
Qed.

(** X1.  What the value returned by [connect_to_server] says of the
    tables.  A call that returns False has changed neither the process
    table nor the tool cache; a call that returns True was made for a
    configured server and has made it a key of both the process table and
    the tool cache. *)
Theorem connect_result_tracks_tables :
  forall s w,
    (fst (connect s w) = Ok false ->
     processes (client (snd (connect s w))) = processes (client w) /\
     tools_cache (client (snd (connect s w))) = tools_cache (client w)) /\
    (fst (connect s w) = Ok true ->
     dict_mem (servers (client w)) s = true /\
     dict_mem (processes (client (snd (connect s w)))) s = true /\
     dict_mem (tools_cache (client (snd (connect s w)))) s = true).
Proof.
  intros s w.
  destruct (connect_cases s w)
    as [_ [[Hr [Hp Hc]] | [[Hr [Hm [Hp [ts Hc]]]] | [Hr _]]]];
    rewrite Hr; repeat split; try discriminate; auto.
  - rewrite Hp. unfold dict_mem. now rewrite dict_get_set_same.
  - rewrite Hc. unfold dict_mem. now rewrite dict_get_set_same.
Qed.

(** X2.  A server that is not configured, or whose executable cannot be
    started, is not connected: [connect_to_server] returns False and the
    world is exactly as before; no request id is used up. *)
Theorem unlaunchable_server_changes_nothing :
  forall s w,
    (dict_get (servers (client w)) s = None \/
     exists cfg e, dict_get (servers (client w)) s = Some cfg /\
                   create_subprocess_exec cfg = Raise e) ->
    connect s w = (Ok false, w).
Proof.
  intros s w [Hnone | [cfg [e [Hs Hsp]]]];
    unfold connect_to_server, try_except, bind, get_client, spawn, ret.
  - now rewrite Hnone.
  - now rewrite Hs, Hsp.
Qed.

(** X3.  The handshake of a server that answers [initialize] with a line
    passing the [result] test: the child is written exactly three messages,
    in this order: [initialize], the [notifications/initialized]
    notification, and [tools/list].  The two requests carry ids taken from
    the client's counter, both above its value at the call and the second
    above the first.  The call returns True, and the child is stored under
    the server's name and is still running. *)
Theorem handshake_message_sequence :
  forall s w cfg p0 v rest,
    dict_get (servers (client w)) s = Some cfg ->
    create_subprocess_exec cfg = Ok p0 ->
    stdin_open p0 = true ->
    stdout_script p0 = Json v :: rest ->
    py_contains "result" v = Ok true ->
    exists w' p' id1 id2,
      connect s w = (Ok true, w') /\
      dict_get (processes (client w')) s = Some (length (heap w)) /\
      nth_error (heap w') (length (heap w)) = Some p' /\
      stdin_log p' =
        (stdin_log p0 ++ [init_message id1;
                          initialized_message;
                          tools_message id2])%list /\
      (request_id (client w) < id1 < id2)%Z /\
      returncode p' = returncode p0.
Proof.
  intros s w cfg p0 v rest Hs Hsp Hopen Hscr Hres.
  unfold connect_to_server, try_except, bind, get_client, spawn,
    _next_request_id, with_process, stdin_send, stdout_readline,
    store_process, lift, ret, json_loads.
  repeat first [run_step | rewrite heap_set_app_last
               | rewrite nth_error_app_last].
  match goal with
  | |- context [_load_tools s ?W] =>
      destruct (load_tools_sends s W (length (heap w))
                  (mkProcess (pid p0) true
                     (stdin_log p0 ++
                      [init_message (request_id (client w) + 1);
                       initialized_message])%list
                     rest (returncode p0) (on_terminate p0)))
        as [w' [p' [ts [Hrun [_ [Hproc [_ [Hid [Hp' [Hlog [Hrc _]]]]]]]]]]]
  end.
  - cbn [client processes set_processes]. apply dict_get_set_same.
  - cbn [heap]. rewrite <- app_assoc. apply nth_error_app_last.
  - reflexivity.
  - rewrite Hrun.
    exists w', p', (request_id (client w) + 1)%Z,
      (request_id (client w) + 1 + 1)%Z.
    cbn [client processes set_processes set_request_id request_id heap
         stdin_log returncode] in *.
    repeat (match goal with |- _ /\ _ => split end); auto; try lia.
    + rewrite Hproc. apply dict_get_set_same.
    + rewrite Hlog, <- app_assoc. reflexivity.
Qed.

End Connecting.

(** ** The tables of a client that only ever connects *)

Lemma dict_mem_In {V} (d : dict V) k :
  dict_mem d k = true <-> In k (dict_keys d).
Proof.
  unfold dict_mem, dict_keys. induction d as [|[k' v] r IH]; simpl.
  - split; [discriminate|tauto].
  - destruct (String.eqb k' k) eqn:E.
    + apply String.eqb_eq in E. subst. tauto.
    + apply String.eqb_neq in E. rewrite IH. split; [tauto|].
      intros [H|H]; [congruence|exact H].
Qed.

Lemma dict_keys_set_In {V} (d : dict V) k v k' :
  In k' (dict_keys (dict_set d k v)) <-> In k' (dict_keys d) \/ k' = k.
Proof.
  unfold dict_keys. induction d as [|[k0 v0] r IH]; simpl.
  - intuition congruence.
  - destruct (String.eqb k0 k) eqn:E; simpl.
    + apply String.eqb_eq in E. subst. intuition congruence.
    + rewrite IH. tauto.
Qed.

Lemma dict_keys_set_NoDup {V} (d : dict V) k v :
  NoDup (dict_keys d) -> NoDup (dict_keys (dict_set d k v)).
Proof.
  unfold dict_keys. induction d as [|[k0 v0] r IH]; simpl; intros H.
  - constructor; [tauto|constructor].
  - inversion H as [|x l Hnotin Hr]; subst.
    destruct (String.eqb k0 k) eqn:E; simpl.
    + apply String.eqb_eq in E. subst. constructor; auto.
    + apply String.eqb_neq in E. constructor; auto.
      intros Hin. apply (dict_keys_set_In r k v k0) in Hin.
      destruct Hin; [tauto|congruence].
Qed.

(** Setting the same key in two dictionaries with the same keys leaves them
    with the same keys, in the same order. *)
Lemma dict_keys_set_congr {A B} (d1 : dict A) (d2 : dict B) k v1 v2 :
  dict_keys d1 = dict_keys d2 ->
  dict_keys (dict_set d1 k v1) = dict_keys (dict_set d2 k v2).
Proof.
  unfold dict_keys. revert d2.
  induction d1 as [|[k1 a] r1 IH]; intros [|[k2 b] r2] H; simpl in *;
    try discriminate; auto.
  inversion H; subst.
  destruct (String.eqb k2 k); simpl; f_equal; auto.
Qed.


(** ** What [cleanup] leaves alone *)

Lemma cleanup_loop_frame items : forall w r w' h,
  cleanup_loop items w = (r, w') ->
  ~ In h (map snd items) ->
  nth_error (heap w') h = nth_error (heap w) h.
Proof.
  induction items as [|[n h0] rest IH]; intros w r w' h H Hnotin;
    simpl in *.
  - inversion H; subst; auto.
  - unfold bind in H.
    destruct (with_process h0 terminate_if_running w) as [o w1] eqn:E.
    destruct (cleanup_step_frame _ _ _ _ E) as [_ Hf].
    assert (Hne : h0 <> h) by tauto.
    destruct o; try (inversion H; subst; now apply Hf).
    rewrite (IH _ _ _ h H) by tauto. now apply Hf.
Qed.

Lemma cleanup_loop_log items : forall w r w',
  cleanup_loop items w = (r, w') -> llm_requests w' = llm_requests w.
Proof.
  induction items as [|[n h] rest IH]; intros w r w' H; simpl in H.
  - inversion H; auto.
  - unfold bind in H.
    destruct (with_process h terminate_if_running w) as [o w1] eqn:E.
    assert (Hl : llm_requests w1 = llm_requests w).
    { revert E. unfold with_process.
      destruct (nth_error (heap w) h) as [p|].
      - destruct (terminate_if_running p). intros E; inversion E; auto.
      - intros E; inversion E; auto. }
    destruct o; try (inversion H; subst; exact Hl).
    apply IH in H. congruence.
Qed.

(** X6.  However [cleanup] ends (normally, with an exception, or never),
    it leaves the client as it was: the terminated servers stay in the
    process table and their tools stay in the catalog, so [get_all_tools]
    lists the same tools after [cleanup] as before, and a server that was
    in the table still is. *)
Theorem cleanup_keeps_tables_and_catalog :
  forall w,
    client (snd (cleanup w)) = client w /\
    get_all_tools (client (snd (cleanup w))) = get_all_tools (client w) /\
    (forall s, dict_mem (processes (client (snd (cleanup w)))) s =
               dict_mem (processes (client w)) s).
Proof.
  intros w. unfold cleanup, bind, get_client.
  destruct (cleanup_loop (processes (client w)) w) as [r w'] eqn:E.
  apply cleanup_loop_client in E. simpl. rewrite E. auto.
Qed.

(** X7.  [cleanup] terminates only the processes of the process table: a
    process whose handle is not in the table is left exactly as it was. *)
Theorem cleanup_spares_untabled_processes :
  forall w h,
    ~ In h (map snd (processes (client w))) ->
    nth_error (heap (snd (cleanup w))) h = nth_error (heap w) h.
Proof.
  intros w h Hnotin. unfold cleanup, bind, get_client.
  destruct (cleanup_loop (processes (client w)) w) as [r w'] eqn:E.
  simpl. eapply cleanup_loop_frame; eauto.
Qed.

Section Leak.

Variable create_subprocess_exec : MCPServerConfig -> outcome process.

Abbreviation connect := (connect_to_server create_subprocess_exec).

(** The child of a rejected handshake: it is on the heap, written the
    [initialize] request at most, and neither terminated nor waited for. *)
Lemma connect_rejected_child s w cfg p0 resp rest :
  dict_get (servers (client w)) s = Some cfg ->
  create_subprocess_exec cfg = Ok p0 ->
  stdout_script p0 = resp :: rest ->
  rejected_reply resp = true ->
  exists w' p',
    connect s w = (Ok false, w') /\
    processes (client w') = processes (client w) /\
    heap w' = (heap w ++ [p'])%list /\
    returncode p' = returncode p0 /\
    on_terminate p' = on_terminate p0.
Proof.
  intros Hs Hsp Hscr Hrej.
  unfold connect_to_server, try_except, bind, get_client, spawn,
    _next_request_id, with_process, stdin_send, stdout_readline, lift, ret,
    json_loads, py_contains.
  assert (Hres : forall f, resp = Json (JObj f) -> dict_mem f "result" = false).
  { intros f ->. simpl in Hrej. now apply negb_true_iff in Hrej. }
  repeat first [run_step | rewrite heap_set_app_last
               | rewrite nth_error_app_last].
  destruct (stdin_open p0) eqn:Hopen;
    repeat first [run_step | rewrite heap_set_app_last
                 | rewrite nth_error_app_last].
  - destruct resp as [| | |[]|]; try discriminate;
      repeat first [run_step | rewrite heap_set_app_last
                   | rewrite nth_error_app_last | erewrite Hres by eauto];
      do 2 eexists; (split; [reflexivity|]);
      repeat (match goal with |- _ /\ _ => split end); reflexivity.
  - do 2 eexists; (split; [reflexivity|]);
      repeat (match goal with |- _ /\ _ => split end); reflexivity.
Qed.

(** X8.  A child whose handshake is rejected is never terminated: it was
    started, it is not put in the process table, and after the [cleanup]
    that follows, however that ends, it is as running as it was when
    started. *)
Theorem rejected_child_is_never_terminated :
  forall s w cfg p0 resp rest,
    handles_valid w = true ->
    dict_get (servers (client w)) s = Some cfg ->
    create_subprocess_exec cfg = Ok p0 ->
    stdout_script p0 = resp :: rest ->
    rejected_reply resp = true ->
    exists p',
      nth_error (heap (snd (cleanup (snd (connect s w))))) (length (heap w))
        = Some p' /\
      returncode p' = returncode p0 /\
      ~ In (length (heap w))
           (map snd (processes (client (snd (cleanup (snd (connect s w))))))).
Proof.
  intros s w cfg p0 resp rest Hv Hs Hsp Hscr Hrej.
  destruct (connect_rejected_child s w cfg p0 resp rest Hs Hsp Hscr Hrej)
    as [w' [p' [Hrun [Hproc [Hheap [Hrc _]]]]]].
  rewrite Hrun. cbn [snd].
  assert (Hnotin : ~ In (length (heap w)) (map snd (processes (client w')))).
  { rewrite Hproc. intros Hin. apply in_map_iff in Hin as [e [He Hin]].
    unfold handles_valid in Hv. rewrite forallb_forall in Hv.
    apply Hv in Hin. apply Nat.ltb_lt in Hin. lia. }
  unfold cleanup, bind, get_client.
  destruct (cleanup_loop (processes (client w')) w') as [r w2] eqn:E.
  cbn [snd]. exists p'. split; [|split; auto].
  - rewrite (cleanup_loop_frame _ _ _ _ _ E Hnotin), Hheap.
    apply nth_error_app_last.
  - apply cleanup_loop_client in E. now rewrite E.
Qed.

End Leak.

(** ** More on [_load_tools] *)

(** X9.  [_load_tools] never raises, whatever the server is or does: it
    returns normally, leaves the server definitions and the process table as
    they were, gives the named server a sub-catalog, and changes no other
    server's sub-catalog. *)
Theorem load_tools_never_raises :
  forall s w,
    exists w',
      _load_tools s w = (Ok tt, w') /\
      servers (client w') = servers (client w) /\
      processes (client w') = processes (client w) /\
      dict_mem (tools_cache (client w')) s = true /\
      (forall s', s <> s' ->
         dict_get (tools_cache (client w')) s' =
         dict_get (tools_cache (client w)) s').
Proof.
  intros s w.
  destruct (load_tools_total s w) as [ts [w' [Hrun [Hs [Hp [Hc _]]]]]].
  exists w'. rewrite Hc. repeat split; auto.
  - unfold dict_mem. now rewrite dict_get_set_same.
  - intros s' Hne. now apply dict_get_set_other.
Qed.

(** X10.  When the server gives no usable answer to [tools/list] (nothing
    in time, end of stream, bytes that do not parse, or a line over the
    limit of the stream reader), its sub-catalog becomes empty, whatever it
    held before: tools loaded earlier are dropped. *)
Theorem unanswered_reload_empties_subcatalog :
  forall s w h p,
    dict_get (processes (client w)) s = Some h ->
    nth_error (heap w) h = Some p ->
    match stdout_script p with
    | [] | Timeout :: _ | Eof :: _ | Garbage :: _ | Oversized :: _ => True
    | Json _ :: _ => False
    end ->
    dict_get (tools_cache (client (snd (_load_tools s w)))) s = Some [].
Proof.
  intros s w h p Hs Hh Hscr.
  unfold _load_tools, try_except, bind, lookup_process, _next_request_id,
    with_process, stdin_send, stdout_readline, store_tools, lift, ret,
    json_loads.
  repeat run_step.
  destruct (stdin_open p) eqn:Hopen; repeat run_step;
    [|cbn; apply dict_get_set_same].
  destruct (stdout_script p) as [|[| | |v|] rest] eqn:Hscript;
    try contradiction; repeat run_step; cbn; apply dict_get_set_same.
Qed.

(** X11.  [_load_tools] for a server that is not in the process table
    sends nothing and uses no request id; it only records an empty
    sub-catalog under that name. *)
Theorem load_tools_of_unknown_server :
  forall s w,
    dict_get (processes (client w)) s = None ->
    _load_tools s w =
      (Ok tt,
       mkWorld (set_tools_cache (client w)
                  (dict_set (tools_cache (client w)) s []))
               (heap w) (llm_requests w)).
Proof.
  intros s w H.
  unfold _load_tools, try_except, bind, lookup_process, store_tools.
  now rewrite H.
Qed.

(** X12.  What a raw declaration with a [name] becomes: an entry of type
    "function" whose name is the raw name, whose description is the raw one
    or the empty string when absent, and whose parameters are the raw
    [inputSchema], unmodified, or the empty object when absent. *)
Theorem converted_entry_carries_raw_fields :
  forall f n,
    dict_get f "name" = Some n ->
    exists t g,
      openai_tool (JObj f) = Ok t /\
      py_get t "type" JNull = Ok (JStr "function") /\
      py_get t "function" JNull = Ok g /\
      entry_name t = Ok n /\
      py_getitem g "description" =
        Ok (match dict_get f "description" with
            | Some d => d
            | None => JStr EmptyString
            end) /\
      py_getitem g "parameters" =
        Ok (match dict_get f "inputSchema" with
            | Some sch => sch
            | None => JObj []
            end).
Proof.
  intros f n Hn. unfold openai_tool, py_getitem, py_get, entry_name.
  rewrite Hn.
  destruct (dict_get f "description"), (dict_get f "inputSchema");
    simpl; do 2 eexists; repeat split; reflexivity.
Qed.

Lemma dict_values_set_new {V} (d : dict V) k v :
  dict_get d k = None ->
  dict_values (dict_set d k v) = (dict_values d ++ [v])%list.
Proof.
  unfold dict_values. induction d as [|[k' v'] r IH]; simpl; auto.
  destruct (String.eqb k' k); [discriminate|].
  intros H. simpl. now rewrite IH.
Qed.

Lemma dict_values_set_old {V} (d : dict V) k v old :
  dict_get d k = Some old ->
  exists pre post,
    dict_values d = (pre ++ old :: post)%list /\
    dict_values (dict_set d k v) = (pre ++ v :: post)%list.
Proof.
  unfold dict_values. induction d as [|[k' v'] r IH]; simpl; [discriminate|].
  destruct (String.eqb k' k).
  - intros H; inversion H; subst. exists [], (map snd r). auto.
  - intros H. destruct (IH H) as [pre [post [H1 H2]]].
    exists (v' :: pre), post. simpl. now rewrite H1, H2.
Qed.

(** X13.  Aggregation order.  Loading the tools of a server that has no
    sub-catalog yet appends them to the aggregated catalog, after the tools
    of all servers loaded before; loading again the tools of a server that
    has one replaces its tools where they stood, the tools before and after
    them unchanged. *)
Theorem load_tools_aggregation_order :
  forall s w,
    exists ts,
      dict_get (tools_cache (client (snd (_load_tools s w)))) s = Some ts /\
      (dict_get (tools_cache (client w)) s = None ->
       get_all_tools (client (snd (_load_tools s w))) =
         (get_all_tools (client w) ++ ts)%list) /\
      (forall old,
         dict_get (tools_cache (client w)) s = Some old ->
         exists before after,
           get_all_tools (client w) = (before ++ old ++ after)%list /\
           get_all_tools (client (snd (_load_tools s w))) =
             (before ++ ts ++ after)%list).
Proof.
  intros s w.
  destruct (load_tools_total s w) as [ts [w' [Hrun [_ [_ [Hc _]]]]]].
  rewrite Hrun. cbn [snd]. unfold get_all_tools. rewrite Hc.
  exists ts. split; [apply dict_get_set_same|]. split.
  - intros Hnone. rewrite dict_values_set_new by exact Hnone.
    rewrite concat_app. simpl. now rewrite app_nil_r.
  - intros old Hold.
    destruct (dict_values_set_old _ s ts old Hold) as [pre [post [H1 H2]]].
    exists (concat pre), (concat post).
    rewrite H1, H2, !concat_app. simpl. auto.
Qed.

(** ** More on the service *)

Lemma prefix_app p s : prefix p (p ++ s) = true.
Proof.
  induction p as [|c q IH]; [now destruct s|].
  simpl. destruct (ascii_dec c c); [exact IH|congruence].
Qed.

(** X18.  Resolution takes the first entry with the requested name: entries
    before it that carry other names are passed over, entries after it are
    not looked at, and the answer is that entry's [server_name], None when
    it has none. *)
Theorem first_matching_tool_wins :
  forall n before tool after f,
    Forall (named_otherwise n) before ->
    py_get tool "function" (JObj []) = Ok f ->
    py_get f "name" JNull = Ok (JStr n) ->
    _extract_server_name_from_tool (mkToolCall n) (before ++ tool :: after)
    = py_get tool "server_name" JNull.
Proof.
  intros n before tool after f Hb Hf Hn.
  unfold _extract_server_name_from_tool. cbn [function_name].
  induction Hb as [|x r [g [y [Hg [Hy Hne]]]] _ IH]; simpl.
  - rewrite Hf. simpl. rewrite Hn. simpl. now rewrite String.eqb_refl.
  - rewrite Hg. simpl. rewrite Hy. simpl. now rewrite Hne.
Qed.

(** X19.  From a tool result whose [content] is a list, the text of the
    first item of type "text" is extracted; items before it of other types
    are skipped, items after it ignored. *)
Theorem first_text_item_is_extracted :
  forall attrs before item after x,
    dict_get attrs "content" = Some (PList (before ++ item :: after)) ->
    forallb (fun i => negb (is_text_item i)) before = true ->
    is_text_item item = true ->
    py_getattr item "text" = Some x ->
    _extract_text_from_result (PObj attrs) = x.
Proof.
  intros attrs before item after x Hc Hb Hi Hx.
  unfold _extract_text_from_result. cbn [py_getattr]. rewrite Hc.
  assert (Ht : pyval_truthy (PList (before ++ item :: after)) = true)
    by (destruct before; reflexivity).
  rewrite Ht. clear Hc Ht.
  induction before as [|b r IH]; simpl in *.
  - unfold is_text_item in Hi.
    destruct (py_getattr item "type") as [[]|]; try discriminate.
    now rewrite Hi, Hx.
  - apply andb_true_iff in Hb as [Hb Hr]. apply negb_true_iff in Hb.
    unfold is_text_item in Hb.
    destruct (py_getattr b "type") as [[]|]; auto.
    rewrite Hb. auto.
Qed.

Section ServiceFacts.

Variable container_repr : json -> string.
Variable acompletion : llm_request -> llm_outcome.
Variable accepts : string -> bool.
Variable encode_error : string -> exn.

Abbreviation process :=
  (process_transcript_with_llm container_repr acompletion accepts
     encode_error).
Abbreviation prompt_of := (_create_system_prompt container_repr).

Ltac unfold_process :=
  unfold process_transcript_with_llm, process_body, try_except, bind,
    get_client, call_llm, lift, ret, print_values,
    _extract_server_name_from_tool, request_for in *;
  cbn [find] in *.

(** The item of the prompt for a converted entry with the given name and
    description. *)
Lemma tool_description_converted t :
  converted t ->
  exists n d,
    entry_name t = Ok n /\
    tool_description container_repr t
      = Ok ("- unknown:" ++ py_str container_repr n ++ " - "
            ++ py_str container_repr d).
Proof.
  intros [raw Ht]. unfold tool_description, entry_name.
  rewrite (openai_tool_no_server raw t (JStr "unknown") Ht).
  destruct (openai_tool_function raw t (JObj []) Ht) as [n [d [p ->]]].
  simpl. eauto.
Qed.


(** X15.  With a catalog whose entries were all built by the conversion of
    [_load_tools], no call of [process_transcript_with_llm] executes or
    names a tool: a result it returns never carries a tool name or a server
    name; and when the model name and the start of the transcript can be
    printed and the collaborator asks for a tool, the result is the failure
    "Server 'None' not available for tool call". *)
Theorem tool_calls_are_always_refused :
  forall w transcript model api_key base_url,
    Forall converted (get_all_tools (client w)) ->
    (forall r,
       fst (process transcript model api_key base_url w) = Ok r ->
       tool_name r = None /\ server_name r = None) /\
    (forall prompt msg choices tc calls,
       accepts model = true ->
       accepts (substring 0 100 transcript) = true ->
       get_all_tools (client w) <> [] ->
       prompt_of (get_all_tools (client w)) = Ok prompt ->
       acompletion (request_for transcript model api_key base_url prompt
                      (get_all_tools (client w)))
         = Completion (msg :: choices) ->
       tool_calls msg = Some (tc :: calls) ->
       fst (process transcript model api_key base_url w) =
         Ok (mkResult false (PStr transcript)
               (Some "Server 'None' not available for tool call")
               None None)).
Proof.
  intros w transcript model api_key base_url Hconv.
  assert (Hres : forall n,
             resolve_loop n (get_all_tools (client w)) = Ok JNull)
    by (intros n; now apply resolve_loop_converted).
  destruct (get_all_tools (client w)) as [|t0 ts] eqn:Htools.
  - split.
    + unfold_process. run_all; cbn [fst snd]; intros r Hr;
        inversion Hr; split; reflexivity.
    + intros; congruence.
  - split.
    + unfold_process.
      repeat first
        [ rewrite Hres
        | run_step
        | match goal with
          | |- context [match ?x with _ => _ end] =>
              lazymatch x with
              | context [match _ with _ => _ end] => fail
              | _ => destruct x eqn:?
              end
          end ];
        cbn [fst snd];
        first [ match goal with
                | H : py_truthy JNull = true |- _ => discriminate H
                end
              | intros r Hr; inversion Hr; split; reflexivity ].
    + intros prompt msg choices tc calls Hm Ht _ Hp Hllm Hcalls.
      unfold_process. repeat first [rewrite Hres | run_step]. reflexivity.
Qed.

(** X16.  [process_transcript_with_llm] never changes the client or the
    processes and calls the collaborator at most once.  When the model
    name and the start of the transcript can be printed, the catalog is not
    empty and the prompt can be built, it calls it exactly once, with the
    model, key and base URL it was given, the system prompt followed by the
    transcript as the user message, the whole catalog as tools, temperature
    0.1 and at most 1000 tokens.  Otherwise it does not call it. *)
Theorem collaborator_is_called_once_with_the_catalog :
  forall transcript model api_key base_url w,
    client (snd (process transcript model api_key base_url w)) = client w /\
    heap (snd (process transcript model api_key base_url w)) = heap w /\
    (forall prompt,
       accepts model = true ->
       accepts (substring 0 100 transcript) = true ->
       get_all_tools (client w) <> [] ->
       prompt_of (get_all_tools (client w)) = Ok prompt ->
       llm_requests (snd (process transcript model api_key base_url w)) =
         (llm_requests w ++
          [mkRequest model api_key base_url
             [("system", prompt); ("user", transcript)]
             (get_all_tools (client w)) (1 # 10) 1000])%list) /\
    (accepts model = false \/
     accepts (substring 0 100 transcript) = false \/
     get_all_tools (client w) = [] \/
     (forall prompt, prompt_of (get_all_tools (client w)) <> Ok prompt) ->
     llm_requests (snd (process transcript model api_key base_url w))
       = llm_requests w).
Proof.
  intros transcript model api_key base_url w.
  destruct (process_frame container_repr acompletion accepts encode_error
              transcript model api_key base_url w) as [Hc [Hh _]].
  split; [exact Hc|]. split; [exact Hh|]. split.
  - intros prompt Hm Ht Hne Hp. unfold_process.
    destruct (get_all_tools (client w)) as [|t0 ts] eqn:Htools;
      [congruence|].
    run_all; reflexivity.
  - intros Hcase. unfold_process.
    destruct Hcase as [Hm | [Ht | [Hnil | Hno]]].
    + run_all; reflexivity.
    + destruct (accepts model); repeat run_step; run_all; reflexivity.
    + destruct (accepts model);
        destruct (accepts (substring 0 100 transcript));
        repeat run_step; run_all; reflexivity.
    + destruct (accepts model);
        destruct (accepts (substring 0 100 transcript));
        repeat run_step; try (run_all; reflexivity).
      destruct (get_all_tools (client w)) as [|t0 ts];
        [run_all; reflexivity|].
      destruct (_create_system_prompt container_repr (t0 :: ts))
        as [prompt| |] eqn:Hp; [now destruct (Hno prompt)| |];
        run_all; reflexivity.
Qed.

(** X17.  When the model name and the start of the transcript can be
    printed and the collaborator answers without asking for a tool (the
    message has no tool calls, or an empty list of them), the result is a
    success whose content is the transcript, with no error, tool or
    server. *)
Theorem plain_answer_is_accepted :
  forall transcript model api_key base_url w prompt msg choices,
    accepts model = true ->
    accepts (substring 0 100 transcript) = true ->
    get_all_tools (client w) <> [] ->
    prompt_of (get_all_tools (client w)) = Ok prompt ->
    acompletion (request_for transcript model api_key base_url prompt
                   (get_all_tools (client w)))
      = Completion (msg :: choices) ->
    tool_calls msg = None \/ tool_calls msg = Some [] ->
    fst (process transcript model api_key base_url w) =
      Ok (mkResult true (PStr transcript) None None None).
Proof.
  intros transcript model api_key base_url w prompt msg choices
    Hm Ht Hne Hp Hllm Hcalls.
  unfold_process.
  destruct (get_all_tools (client w)) as [|t0 ts] eqn:Htools; [congruence|].
  destruct Hcalls as [Hcalls | Hcalls]; repeat run_step; reflexivity.
Qed.

End ServiceFacts.

(** ** Loading the server definitions *)

Lemma has_command_loads n cfg :
  has_command cfg = true -> exists c, loaded_server n cfg = Ok c.
Proof.
  unfold has_command, loaded_server, py_getitem, py_get, dict_mem.
  destruct cfg; try discriminate.
  destruct (dict_get fields "command"); [intros _|discriminate].
  destruct (dict_get fields "args"), (dict_get fields "env"),
    (dict_get fields "cwd"); simpl; eauto.
Qed.

Lemma no_command_raises n cfg :
  has_command cfg = false -> exists e, loaded_server n cfg = Raise e.
Proof.
  unfold has_command, loaded_server, py_getitem, dict_mem.
  destruct cfg; simpl; eauto.
  destruct (dict_get fields "command"); [discriminate|simpl; eauto].
Qed.

Lemma load_loop_app before : forall srv after,
  forallb (fun e => has_command (snd e)) before = true ->
  load_loop srv (before ++ after) =
  load_loop (snd (load_loop srv before)) after.
Proof.
  induction before as [|[n cfg] r IH]; intros srv after H; simpl in *; auto.
  apply andb_true_iff in H as [Hc Hr].
  destruct (has_command_loads n cfg Hc) as [c ->]. auto.
Qed.

Lemma load_loop_other items : forall srv k,
  ~ In k (map fst items) ->
  dict_get (snd (load_loop srv items)) k = dict_get srv k.
Proof.
  induction items as [|[n cfg] r IH]; intros srv k Hk; simpl in *; auto.
  destruct (loaded_server n cfg); simpl; auto.
  rewrite IH by tauto. apply dict_get_set_other. tauto.
Qed.

Lemma dict_keys_set_new {V} (d : dict V) k v :
  ~ In k (dict_keys d) ->
  dict_keys (dict_set d k v) = (dict_keys d ++ [k])%list.
Proof.
  unfold dict_keys. induction d as [|[k' v'] r IH]; simpl; auto.
  intros H. destruct (String.eqb k' k) eqn:E.
  - apply String.eqb_eq in E. tauto.
  - simpl. rewrite IH; tauto.
Qed.

Lemma load_loop_keys items : forall srv,
  forallb (fun e => has_command (snd e)) items = true ->
  NoDup (dict_keys srv ++ map fst items) ->
  dict_keys (snd (load_loop srv items)) = (dict_keys srv ++ map fst items)%list.
Proof.
  induction items as [|[n cfg] r IH]; intros srv H Hnd; simpl in *.
  - now rewrite app_nil_r.
  - apply andb_true_iff in H as [Hc Hr].
    destruct (has_command_loads n cfg Hc) as [c ->].
    assert (Hn : ~ In n (dict_keys srv)).
    { intros Hin. apply NoDup_remove_2 in Hnd. apply Hnd.
      apply in_or_app. auto. }
    rewrite IH; auto; rewrite dict_keys_set_new by exact Hn;
      rewrite <- app_assoc; auto.
Qed.

(** X20.  A missing file, a file that cannot be read or parsed, and a
    parsed file that is not an object holding an [mcpServers] object all
    leave the server definitions as they were. *)
Theorem unusable_config_loads_nothing :
  forall file srv,
    match file with
    | FileJson (JObj f) =>
        match dict_get f "mcpServers" with
        | Some (JObj _) => False
        | _ => True
        end
    | _ => True
    end ->
    load_servers_config file srv = srv.
Proof.
  intros file srv H. unfold load_servers_config.
  destruct file as [| |v]; auto.
  unfold py_contains, py_getitem, py_items, dict_mem.
  destruct v; simpl; auto.
  - destruct (is_substring "mcpServers" s); auto.
  - destruct (existsb _ items); auto.
  - destruct (dict_get fields "mcpServers") as [[]|]; simpl; tauto.
Qed.

(** X21.  A server definition without a [command] stops the load where it
    stands: the definitions before it are stored, that one and all those
    after it are not, valid or not.  The outcome is the one of a file that
    ends before the bad definition. *)
Theorem bad_definition_stops_the_load :
  forall before n bad after srv,
    forallb (fun e => has_command (snd e)) before = true ->
    has_command bad = false ->
    load_servers_config (servers_file (before ++ (n, bad) :: after)) srv =
    load_servers_config (servers_file before) srv.
Proof.
  intros before n bad after srv Hb Hbad.
  unfold load_servers_config, servers_file. simpl.
  rewrite load_loop_app by exact Hb. simpl.
  destruct (no_command_raises n bad Hbad) as [e ->]. reflexivity.
Qed.

(** X22.  A file in which every definition has a [command], under distinct
    names, loads into a new client as one definition per name, in the order
    of the file; each holds its name, its command, and its [args], [env]
    and [cwd] as given, or the empty list, None and None when absent. *)
Theorem valid_config_loads_every_server :
  forall items,
    forallb (fun e => has_command (snd e)) items = true ->
    NoDup (map fst items) ->
    dict_keys (load_servers_config (servers_file items) []) = map fst items /\
    (forall n f,
       In (n, JObj f) items ->
       exists c,
         dict_get f "command" = Some c /\
         dict_get (load_servers_config (servers_file items) []) n =
           Some (mkLoaded n c
                   (match dict_get f "args" with
                    | Some a => a | None => JArr [] end)
                   (match dict_get f "env" with
                    | Some e => e | None => JNull end)
                   (match dict_get f "cwd" with
                    | Some d => d | None => JNull end))).
Proof.
  intros items Hc Hnd. unfold load_servers_config, servers_file. simpl.
  split; [now apply (load_loop_keys items [])|].
  intros n f Hin. revert Hc Hnd Hin. generalize (@nil (string * LoadedServerConfig)).
  induction items as [|[n0 cfg0] r IH]; intros srv Hc Hnd Hin; simpl in *;
    [contradiction|].
  apply andb_true_iff in Hc as [Hc0 Hr]. inversion Hnd as [|x l Hnotin Hnd']; subst.
  destruct Hin as [Heq | Hin].
  - inversion Heq; subst. clear Heq.
    unfold has_command, dict_mem in Hc0.
    destruct (dict_get f "command") as [c|] eqn:Hcmd; [|discriminate].
    exists c. split; auto.
    unfold loaded_server, py_getitem, py_get. rewrite Hcmd.
    destruct (dict_get f "args"), (dict_get f "env"), (dict_get f "cwd");
      simpl; rewrite load_loop_other by exact Hnotin;
      apply dict_get_set_same.
  - destruct (has_command_loads n0 cfg0 Hc0) as [c0 ->]. now apply IH.
Qed.

(** ** Isolation of connection attempts *)

(** [_load_tools] reads and writes the process of the named server only. *)
Lemma load_tools_frame s w h :
  dict_get (processes (client w)) s <> Some h ->
  nth_error (heap (snd (_load_tools s w))) h = nth_error (heap w) h.
Proof.
  intros Hne.
  unfold _load_tools, try_except, bind, lookup_process, _next_request_id,
    with_process, stdin_send, stdout_readline, store_tools, lift, ret,
    json_loads.
  run_all; cbn [snd heap];
    try reflexivity;
    rewrite ?nth_error_heap_set_other by congruence; reflexivity.
Qed.

Section Isolation.

Variable create_subprocess_exec : MCPServerConfig -> outcome process.

Abbreviation connect := (connect_to_server create_subprocess_exec).

Lemma connect_heap_frame s w h :
  h < length (heap w) ->
  nth_error (heap (snd (connect s w))) h = nth_error (heap w) h.
Proof.
  intros Hlt.
  unfold connect_to_server, try_except, bind, get_client, spawn,
    _next_request_id, with_process, stdin_send, stdout_readline,
    store_process, lift, ret, json_loads.
  run_all;
    repeat match goal with
           | E : (_, _) = (_, _) |- _ => inversion E; subst; clear E
           end;
    cbn [snd heap];
    try match goal with
        | E : _load_tools ?s0 ?w0 = (_, ?w1) |- _ =>
            let F := fresh in
            assert (F : nth_error (heap (snd (_load_tools s0 w0))) h
                        = nth_error (heap w0) h)
              by (apply load_tools_frame;
                  cbn [client processes set_processes];
                  rewrite dict_get_set_same; intros Heq; inversion Heq; lia);
            rewrite E in F; cbn [snd heap] in F; rewrite F
        end;
    rewrite ?nth_error_heap_set_other by lia;
    rewrite ?nth_error_app1 by lia; reflexivity.
Qed.

(** X23.  A connection attempt for one server, whatever its outcome,
    touches no other server: the other servers' entries in the process table
    and in the tool cache are as before, and so is every process that was
    already running (nothing is written to it or read from it). *)
Theorem connection_attempts_are_isolated :
  forall s w,
    (forall s', s <> s' ->
       dict_get (processes (client (snd (connect s w)))) s' =
       dict_get (processes (client w)) s' /\
       dict_get (tools_cache (client (snd (connect s w)))) s' =
       dict_get (tools_cache (client w)) s') /\
    (forall h, h < length (heap w) ->
       nth_error (heap (snd (connect s w))) h = nth_error (heap w) h).
Proof.
  intros s w. split; [|intros h; apply connect_heap_frame].
  intros s' Hne.
  destruct (connect_cases create_subprocess_exec s w)
    as [_ [[_ [Hp Hc]] | [[_ [_ [Hp [ts Hc]]]] | [_ [Hw _]]]]].
  - now rewrite Hp, Hc.
  - rewrite Hp, Hc. split; now apply dict_get_set_other.
  - now rewrite Hw.
Qed.

End Isolation.

(** ** Instances *)

Lemma connect_result_tracks_tables_witness :
  dict_mem (servers (client (fresh [("s1", cfg_s1)]))) "s1" = true /\
  dict_mem (processes (client (snd echo_run))) "s1" = true /\
  dict_mem (tools_cache (client (snd echo_run))) "s1" = true.
Proof.
  destruct (connect_result_tracks_tables
              (spawn_child [init_ok; tools_reply [raw_tool "echo" "x"]])
              "s1" (fresh [("s1", cfg_s1)])) as [_ H].
  apply H. reflexivity.
Defined.

Lemma unlaunchable_server_changes_nothing_witness :
  connect_to_server spawn_fails "s1" (fresh [("s1", cfg_s1)])
  = (Ok false, fresh [("s1", cfg_s1)]).
Proof.
  apply (unlaunchable_server_changes_nothing spawn_fails "s1"
           (fresh [("s1", cfg_s1)])).
  right. exists cfg_s1, (Exn OSError "[Errno 2] No such file or directory").
  split; reflexivity.
Defined.

Lemma handshake_message_sequence_witness :
  exists w' p' id1 id2,
    connect_to_server
      (spawn_child [init_ok; tools_reply [raw_tool "echo" "x"]])
      "s1" (fresh [("s1", cfg_s1)]) = (Ok true, w') /\
    dict_get (processes (client w')) "s1" = Some 0%nat /\
    nth_error (heap w') 0 = Some p' /\
    stdin_log p' =
      [init_message id1; initialized_message; tools_message id2] /\
    (0 < id1 < id2)%Z /\
    returncode p' = None.
Proof.
  apply (handshake_message_sequence
           (spawn_child [init_ok; tools_reply [raw_tool "echo" "x"]])
           "s1" (fresh [("s1", cfg_s1)]) cfg_s1
           (child [init_ok; tools_reply [raw_tool "echo" "x"]])
           (JObj [("jsonrpc", JStr "2.0"); ("id", JNum 1);
                  ("result", JObj [])])
           [tools_reply [raw_tool "echo" "x"]]); reflexivity.
Defined.

Lemma cleanup_spares_untabled_processes_witness :
  nth_error (heap (snd (cleanup one_tabled_of_two))) 1
  = nth_error (heap one_tabled_of_two) 1.
Proof.
  apply (cleanup_spares_untabled_processes one_tabled_of_two 1).
  simpl. intros [H | []]. discriminate H.
Defined.

Lemma rejected_child_is_never_terminated_witness :
  exists p',
    nth_error
      (heap (snd (cleanup (snd (connect_to_server (spawn_child [init_error])
                                  "s1" (fresh [("s1", cfg_s1)])))))) 0
      = Some p' /\
    returncode p' = None /\
    ~ In 0%nat
         (map snd
            (processes
               (client
                  (snd (cleanup
                          (snd (connect_to_server (spawn_child [init_error])
                                  "s1" (fresh [("s1", cfg_s1)])))))))).
Proof.
  apply (rejected_child_is_never_terminated (spawn_child [init_error])
           "s1" (fresh [("s1", cfg_s1)]) cfg_s1 (child [init_error])
           init_error []); reflexivity.
Defined.

Lemma load_tools_never_raises_witness :
  exists w',
    _load_tools "s1" (loaded_s1 [Garbage]) = (Ok tt, w') /\
    servers (client w') = servers (client (loaded_s1 [Garbage])) /\
    processes (client w') = processes (client (loaded_s1 [Garbage])) /\
    dict_mem (tools_cache (client w')) "s1" = true /\
    (forall s', "s1" <> s' ->
       dict_get (tools_cache (client w')) s' =
       dict_get (tools_cache (client (loaded_s1 [Garbage]))) s').
Proof. exact (load_tools_never_raises "s1" (loaded_s1 [Garbage])). Defined.

Lemma unanswered_reload_empties_subcatalog_witness :
  dict_get (tools_cache (client (loaded_s1 [Timeout]))) "s1"
    = Some [entry "echo" "x"] /\
  dict_get (tools_cache (client (snd (_load_tools "s1" (loaded_s1 [Timeout])))))
           "s1" = Some [].
Proof.
  split; [reflexivity|].
  apply (unanswered_reload_empties_subcatalog "s1" (loaded_s1 [Timeout])
           0%nat (child [Timeout])); [reflexivity|reflexivity|exact I].
Defined.

Lemma load_tools_of_unknown_server_witness :
  _load_tools "ghost" (fresh []) =
    (Ok tt, mkWorld (mkClient [] [] [("ghost", [])] 0) [] []).
Proof.
  apply (load_tools_of_unknown_server "ghost" (fresh [])). reflexivity.
Defined.

Lemma converted_entry_carries_raw_fields_witness :
  exists t g,
    openai_tool (JObj [("name", JStr "echo")]) = Ok t /\
    py_get t "type" JNull = Ok (JStr "function") /\
    py_get t "function" JNull = Ok g /\
    entry_name t = Ok (JStr "echo") /\
    py_getitem g "description" = Ok (JStr EmptyString) /\
    py_getitem g "parameters" = Ok (JObj []).
Proof.
  apply (converted_entry_carries_raw_fields [("name", JStr "echo")]
           (JStr "echo")).
  reflexivity.
Defined.

Lemma load_tools_aggregation_order_witness :
  exists before after,
    get_all_tools (client (loaded_s1 [tools_reply [raw_tool "add" "sum"]]))
      = (before ++ [entry "echo" "x"] ++ after)%list /\
    exists ts,
      get_all_tools
        (client (snd (_load_tools "s1"
                        (loaded_s1 [tools_reply [raw_tool "add" "sum"]]))))
      = (before ++ ts ++ after)%list.
Proof.
  destruct (load_tools_aggregation_order "s1"
              (loaded_s1 [tools_reply [raw_tool "add" "sum"]]))
    as [ts [_ [_ H]]].
  destruct (H [entry "echo" "x"] eq_refl) as [before [after [H1 H2]]].
  exists before, after. split; [exact H1|]. exists ts. exact H2.
Defined.

Lemma first_matching_tool_wins_witness :
  _extract_server_name_from_tool (mkToolCall "echo")
    [owned_entry "s0" "add"; owned_entry "s1" "echo"; owned_entry "s2" "echo"]
  = Ok (JStr "s1").
Proof.
  apply (first_matching_tool_wins "echo" [owned_entry "s0" "add"]
           (owned_entry "s1" "echo") [owned_entry "s2" "echo"]
           (JObj [("name", JStr "echo")])).
  - constructor; [|constructor].
    exists (JObj [("name", JStr "add")]), (JStr "add").
    repeat split; reflexivity.
  - reflexivity.
  - reflexivity.
Defined.

Lemma first_text_item_is_extracted_witness :
  _extract_text_from_result
    (PObj [("content", PList [image_item; text_item "hello"; text_item "bye"])])
  = PStr "hello".
Proof.
  apply (first_text_item_is_extracted
           [("content", PList [image_item; text_item "hello"; text_item "bye"])]
           [image_item] (text_item "hello") [text_item "bye"] (PStr "hello"));
    reflexivity.
Defined.


Lemma echo_catalog_converted :
  Forall converted (get_all_tools (client (snd echo_run))).
Proof.
  constructor; [exists (raw_tool "echo" "x"); reflexivity|constructor].
Qed.

Lemma tool_calls_are_always_refused_witness :
  fst (process_transcript_with_llm no_repr asks_for_echo refuses_255
         codec_error "say hi" "gpt-4o-mini" None None (snd echo_run))
  = Ok (mkResult false (PStr "say hi")
          (Some "Server 'None' not available for tool call") None None).
Proof.
  destruct (tool_calls_are_always_refused no_repr asks_for_echo refuses_255
              codec_error (snd echo_run) "say hi" "gpt-4o-mini" None None
              echo_catalog_converted) as [_ H].
  apply (H (prompt_head ++ "- unknown:echo - x" ++ prompt_tail)
           (mkMessage (Some [mkToolCall "echo"])) []
           (mkToolCall "echo") []);
    try reflexivity.
  vm_compute. discriminate.
Defined.

Lemma collaborator_is_called_once_with_the_catalog_witness :
  llm_requests
    (snd (process_transcript_with_llm no_repr answers_plainly refuses_255
            codec_error "say hi" "gpt-4o-mini" (Some "sk-test") None
            (snd echo_run)))
  = [mkRequest "gpt-4o-mini" (Some "sk-test") None
       [("system", prompt_head ++ "- unknown:echo - x" ++ prompt_tail);
        ("user", "say hi")]
       [entry "echo" "x"] (1 # 10) 1000].
Proof.
  destruct (collaborator_is_called_once_with_the_catalog no_repr
              answers_plainly refuses_255 codec_error "say hi"
              "gpt-4o-mini" (Some "sk-test") None (snd echo_run))
    as [_ [_ [H _]]].
  apply (H (prompt_head ++ "- unknown:echo - x" ++ prompt_tail));
    try reflexivity.
  vm_compute. discriminate.
Defined.

Lemma plain_answer_is_accepted_witness :
  fst (process_transcript_with_llm no_repr answers_plainly refuses_255
         codec_error "say hi" "gpt-4o-mini" None None (snd echo_run))
  = Ok (mkResult true (PStr "say hi") None None None).
Proof.
  apply (plain_answer_is_accepted no_repr answers_plainly refuses_255
           codec_error "say hi" "gpt-4o-mini" None None (snd echo_run)
           (prompt_head ++ "- unknown:echo - x" ++ prompt_tail)
           (mkMessage None) []);
    try reflexivity; [vm_compute; discriminate|left; reflexivity].
Defined.

Lemma unusable_config_loads_nothing_witness :
  load_servers_config (FileJson (JObj [("servers", JObj [])])) [] = [] /\
  load_servers_config NoFile [] = [].
Proof.
  split.
  - apply (unusable_config_loads_nothing
             (FileJson (JObj [("servers", JObj [])])) []). exact I.
  - apply (unusable_config_loads_nothing NoFile []). exact I.
Defined.

Lemma bad_definition_stops_the_load_witness :
  load_servers_config
    (servers_file [("echo", def_echo); ("broken", def_no_command);
                   ("files", def_bare)]) []
  = load_servers_config (servers_file [("echo", def_echo)]) [].
Proof.
  apply (bad_definition_stops_the_load [("echo", def_echo)] "broken"
           def_no_command [("files", def_bare)] []); reflexivity.
Defined.

Lemma valid_config_loads_every_server_witness :
  dict_keys (load_servers_config
               (servers_file [("echo", def_echo); ("files", def_bare)]) [])
    = ["echo"; "files"] /\
  exists c,
    dict_get [("command", JStr "mcp-files")] "command" = Some c /\
    dict_get (load_servers_config
                (servers_file [("echo", def_echo); ("files", def_bare)]) [])
             "files"
      = Some (mkLoaded "files" c (JArr []) JNull JNull).
Proof.
  assert (Hnd : NoDup (map fst [("echo", def_echo); ("files", def_bare)])).
  { simpl. constructor; [intros [H | []]; discriminate H|].
    constructor; [intros []|constructor]. }
  destruct (valid_config_loads_every_server
              [("echo", def_echo); ("files", def_bare)] eq_refl Hnd)
    as [Hk Hg].
  split; [exact Hk|].
  apply (Hg "files" [("command", JStr "mcp-files")]).
  simpl. right. left. reflexivity.
Defined.

Lemma connection_attempts_are_isolated_witness :
  dict_get (processes
              (client (snd (connect_to_server (spawn_child [init_error])
                              "s2" s1_live_s2_pending))))
           "s1" = Some 0%nat /\
  nth_error (heap (snd (connect_to_server (spawn_child [init_error])
                          "s2" s1_live_s2_pending))) 0
    = Some (child []).
Proof.
  destruct (connection_attempts_are_isolated (spawn_child [init_error])
              "s2" s1_live_s2_pending) as [Ht Hh].
  split.
  - destruct (Ht "s1") as [Hp _]; [discriminate|exact Hp].
  - apply (Hh 0%nat). simpl. lia.
Defined.

(** * Connection attempts under [asyncio.gather] *)

Ltac split_conj := repeat match goal with |- _ /\ _ => split end.

Section Gather.

Variable create_subprocess_exec : MCPServerConfig -> outcome process.
Variable accepts : string -> bool.
Variable encode_error : string -> exn.

Abbreviation step := (attempt_step create_subprocess_exec accepts encode_error).

Lemma dict_get_In {V} (d : dict V) k v :
  dict_get d k = Some v -> In k (dict_keys d).
Proof.
  intros H. apply dict_mem_In. unfold dict_mem. now rewrite H.
Qed.

Lemma dict_keys_set_here {V} (d : dict V) k v :
  In k (dict_keys (dict_set d k v)).
Proof. apply dict_keys_set_In. now right. Qed.

Lemma incl_dict_set_l {V} (d : dict V) k v keys :
  incl (dict_keys d) keys -> In k keys ->
  incl (dict_keys (dict_set d k v)) keys.
Proof.
  intros H Hk x Hx. apply dict_keys_set_In in Hx as [Hx| ->]; auto.
Qed.

Lemma incl_dict_set_r {V} (d : dict V) k v keys :
  incl keys (dict_keys d) -> incl keys (dict_keys (dict_set d k v)).
Proof.
  intros H x Hx. apply dict_keys_set_In. left. auto.
Qed.

Lemma step_sound srv a w a' w' :
  tables_ok srv (client w) -> attempt_ok (client w) a ->
  step a w = Some (a', w') ->
  tables_ok srv (client w') /\ attempt_ok (client w') a' /\
  steps_left a' < steps_left a /\
  incl (dict_keys (processes (client w))) (dict_keys (processes (client w'))) /\
  ends_well accepts encode_error a'.
Proof.
  intros Ht Ha.
  unfold attempt_step.
  destruct a as [s|s cfg|s h|s h|s h|s h|s h|r]; cbn [resume]; try discriminate.
  1: { destruct (accepts s) eqn:Hacc.
       - destruct (dict_get (servers (client w)) s) eqn:Hs;
           intros E; inversion E; subst; clear E; simpl;
           split_conj; auto using incl_refl; try lia.
         destruct Ht as [Hsrv _]. eapply dict_get_In; eauto.
       - intros E; inversion E; subst; clear E; simpl;
           split_conj; auto using incl_refl; try lia. eauto. }
  all: unfold connect_failed, no_tools, store_answer.
  all: unfold try_except, bind, spawn, _next_request_id, with_process,
      stdin_write, stdin_drain, stdout_readline, store_process, store_tools,
      lookup_process, lift, ret, json_loads;
    run_all.
  all: intros E; try discriminate E; inversion E; subst; clear E.
  all: repeat match goal with
              | H : (_, _) = (_, _) |- _ => inversion H; subst; clear H
              end.
  all: try discriminate.
  all: try solve [no_hang].
  all: cbn [client steps_left ends_well attempt_ok]; split_conj; try lia; try exact I.
  all: unfold tables_ok, plain_catalog in *;
    cbn [client servers processes tools_cache set_request_id set_processes
         set_tools_cache attempt_ok] in *;
    destruct Ht as (Hsrv & Hp & Hc & Hnp & Hnc & Hplain);
    try destruct Ha as [Ha Ha'];
    try rewrite Hsrv in *;
    split_conj;
    auto using incl_refl, dict_keys_set_here, incl_dict_set_l, incl_dict_set_r,
      dict_keys_set_NoDup.
  all: apply dict_set_values_Forall; auto.
  all: eapply convert_tools_converted; eauto.
Qed.

Lemma step_ends a w a' w' :
  step a w = Some (a', w') ->
  steps_left a' < steps_left a /\ ends_well accepts encode_error a'.
Proof.
  unfold attempt_step.
  destruct a as [s|s cfg|s h|s h|s h|s h|s h|r]; cbn [resume]; try discriminate.
  1: { destruct (accepts s) eqn:Hacc.
       - destruct (dict_get (servers (client w)) s) eqn:Hs;
           intros E; inversion E; subst; clear E; simpl; split_conj; auto; lia.
       - intros E; inversion E; subst; clear E; simpl; split_conj; eauto; lia. }
  all: unfold connect_failed, no_tools, store_answer.
  all: unfold try_except, bind, spawn, _next_request_id, with_process,
      stdin_write, stdin_drain, stdout_readline, store_process, store_tools,
      lookup_process, lift, ret, json_loads;
    run_all.
  all: intros E; try discriminate E; inversion E; subst; clear E.
  all: repeat match goal with
              | H : (_, _) = (_, _) |- _ => inversion H; subst; clear H
              end.
  all: try discriminate.
  all: try solve [no_hang].
  all: cbn [steps_left ends_well]; split_conj; try lia; exact I.
Qed.

(** An attempt that has not finished can be resumed, unless it waits for a
    process creation that never returns. *)
Lemma step_progress a w :
  settled a = false ->
  (forall s cfg, a = Spawning s cfg -> create_subprocess_exec cfg <> Hang) ->
  exists a' w', step a w = Some (a', w').
Proof.
  intros Hs Hc. unfold attempt_step.
  destruct a as [s|s cfg|s h|s h|s h|s h|s h|r]; cbn [resume];
    try discriminate Hs.
  1: { destruct (accepts s); [destruct (dict_get (servers (client w)) s)|];
         eauto. }
  1: specialize (Hc s cfg eq_refl).
  all: clear Hs.
  all: unfold connect_failed, no_tools, store_answer.
  all: unfold try_except, bind, spawn, _next_request_id, with_process,
      stdin_write, stdin_drain, stdout_readline, store_process, store_tools,
      lookup_process, lift, ret, json_loads;
    run_all.
  all: repeat match goal with
              | H : (_, _) = (_, _) |- _ => inversion H; subst; clear H
              end.
  all: try discriminate.
  all: try solve [no_hang].
  all: try solve [eauto].
  all: exfalso; auto.
Qed.

(** *** Runs of the event loop *)

Abbreviation run := (gather_run create_subprocess_exec accepts encode_error).
Abbreviation loop_step :=
  (gather_step create_subprocess_exec accepts encode_error).
Abbreviation well_ended := (ends_well accepts encode_error).

Lemma attempt_ok_mono c c' a :
  servers c' = servers c ->
  incl (dict_keys (processes c)) (dict_keys (processes c')) ->
  attempt_ok c a -> attempt_ok c' a.
Proof.
  intros Hs Hp. destruct a; simpl; rewrite ?Hs; intuition.
Qed.

Lemma list_sum_middle (before after : list nat) x :
  list_sum (before ++ x :: after) = x + list_sum before + list_sum after.
Proof.
  rewrite list_sum_app. simpl. lia.
Qed.

Lemma loop_step_measure tasks w tasks' w' :
  Forall well_ended tasks ->
  loop_step (tasks, w) (tasks', w') ->
  Forall well_ended tasks' /\
  length tasks' = length tasks /\
  list_sum (map steps_left tasks') < list_sum (map steps_left tasks).
Proof.
  intros He Hstep. inversion Hstep as [before a after w0 a' w0' Ha]; subst.
  apply step_ends in Ha as [Hlt Hend].
  apply Forall_app in He as [Hb Hafter]. inversion Hafter; subst.
  split_conj.
  - apply Forall_app. split; auto.
  - rewrite !length_app. reflexivity.
  - rewrite !map_app. simpl. rewrite !list_sum_middle. lia.
Qed.

Lemma loop_step_sound srv tasks w tasks' w' :
  tables_ok srv (client w) ->
  Forall (attempt_ok (client w)) tasks ->
  loop_step (tasks, w) (tasks', w') ->
  tables_ok srv (client w') /\ Forall (attempt_ok (client w')) tasks'.
Proof.
  intros Ht Hok Hstep.
  inversion Hstep as [before a after w0 a' w0' Ha]; subst.
  apply Forall_app in Hok as [Hb Hafter]. inversion Hafter; subst.
  eapply step_sound in Ha as (Ht' & Ha' & _ & Hincl & _); eauto.
  split; auto.
  assert (Hs : servers (client w') = servers (client w)).
  { destruct Ht as [-> _]. destruct Ht' as [-> _]. reflexivity. }
  apply Forall_app. split; [|constructor].
  - eapply Forall_impl; [|exact Hb]. intros b. now apply attempt_ok_mono.
  - exact Ha'.
  - eapply Forall_impl; [|eassumption]. intros b. now apply attempt_ok_mono.
Qed.

Lemma run_measure n : forall tasks w tasks' w',
  Forall well_ended tasks ->
  run n (tasks, w) (tasks', w') ->
  Forall well_ended tasks' /\
  length tasks' = length tasks /\
  n + list_sum (map steps_left tasks') <= list_sum (map steps_left tasks).
Proof.
  induction n as [|n IH]; intros tasks w tasks' w' He Hrun;
    inversion Hrun as [|n0 st1 [tasks2 w2] st3 Hstep Hrest]; subst.
  - split_conj; auto.
  - apply loop_step_measure in Hstep as (He2 & Hlen & Hlt); auto.
    apply IH in Hrest as (He3 & Hlen3 & Hle); auto.
    split_conj; auto; lia.
Qed.

Lemma run_sound srv n : forall tasks w tasks' w',
  tables_ok srv (client w) ->
  Forall (attempt_ok (client w)) tasks ->
  run n (tasks, w) (tasks', w') ->
  tables_ok srv (client w') /\ Forall (attempt_ok (client w')) tasks'.
Proof.
  induction n as [|n IH]; intros tasks w tasks' w' Ht Hok Hrun;
    inversion Hrun as [|n0 st1 [tasks2 w2] st3 Hstep Hrest]; subst.
  - auto.
  - eapply loop_step_sound in Hstep as [Ht2 Hok2]; eauto.
Qed.

Lemma connection_tasks_measure w :
  list_sum (map steps_left (connection_tasks w)) =
  7 * length (dict_keys (servers (client w))).
Proof.
  unfold connection_tasks.
  induction (dict_keys (servers (client w))) as [|s r IH]; simpl in *; lia.
Qed.

Lemma connection_tasks_ok c w : Forall (attempt_ok c) (connection_tasks w).
Proof.
  unfold connection_tasks. apply Forall_forall. intros a Ha.
  apply in_map_iff in Ha as [s [<- _]]. exact I.
Qed.

Lemma connection_tasks_ended w : Forall well_ended (connection_tasks w).
Proof.
  unfold connection_tasks. apply Forall_forall. intros a Ha.
  apply in_map_iff in Ha as [s [<- _]]. exact I.
Qed.

Lemma unsettled_task tasks :
  forallb settled tasks = false ->
  exists before a after,
    tasks = (before ++ a :: after)%list /\ settled a = false.
Proof.
  induction tasks as [|a r IH]; simpl; [discriminate|].
  destruct (settled a) eqn:E; simpl.
  - intros H. destruct (IH H) as (b & x & af & -> & Hx).
    exists (a :: b), x, af. auto.
  - intros _. exists [], a, r. auto.
Qed.

Lemma resume_nth_step i : forall tasks w st,
  resume_nth create_subprocess_exec accepts encode_error i tasks w = Some st ->
  loop_step (tasks, w) st.
Proof.
  induction i as [|i IH]; intros [|a r] w st; simpl; try discriminate.
  - destruct (attempt_step _ _ _ a w) as [[a' w']|] eqn:E; [|discriminate].
    intros H; inversion H; subst.
    now apply (gather_resume _ _ _ [] a r w a' w').
  - destruct (resume_nth _ _ _ i r w) as [[r' w']|] eqn:E; [|discriminate].
    intros H; inversion H; subst.
    apply IH in E. inversion E as [before x after w0 x' w0' Hx]; subst.
    now apply (gather_resume _ _ _ (a :: before) x after w x' w').
Qed.

Lemma gather_schedule_run sched : forall st st',
  gather_schedule create_subprocess_exec accepts encode_error sched st
    = Some st' ->
  run (length sched) st st'.
Proof.
  induction sched as [|i r IH]; intros [tasks w] st'; simpl.
  - intros H; inversion H; subst. constructor.
  - destruct (resume_nth _ _ _ i tasks w) as [st2|] eqn:E; [|discriminate].
    intros H. econstructor; [eapply resume_nth_step; eauto|auto].
Qed.


Lemma plain_catalog_tools c :
  plain_catalog c -> Forall converted (get_all_tools c).
Proof.
  unfold plain_catalog, get_all_tools. intros H.
  induction H; simpl; [constructor|]. apply Forall_app; auto.
Qed.

Abbreviation alone := (run_alone create_subprocess_exec accepts encode_error).

Ltac unfold_monad :=
  unfold connect_failed, no_tools, store_answer;
  unfold try_except, bind, spawn, _next_request_id, with_process,
    stdin_write, stdin_drain, stdin_send, stdout_readline, store_process,
    store_tools, lookup_process, lift, ret, json_loads.

Ltac tidy :=
  first [ rewrite heap_set_twice | rewrite dict_get_set_same | run_step ].

Ltac run_tidy :=
  repeat first
    [ tidy
    | match goal with
      | |- context [match ?x with _ => _ end] =>
          lazymatch x with
          | context [match _ with _ => _ end] => fail
          | _ => destruct x eqn:?
          end
      end ].

Ltac resume_once :=
  cbn [run_alone]; unfold attempt_step; cbn [resume];
  unfold_monad; repeat tidy.

Lemma alone_is_connect s w b w' :
  accepts s = true ->
  connect_to_server create_subprocess_exec s w = (Ok b, w') ->
  alone 7 (NotStarted s) w = (Settled (Ok b), w').
Proof.
  intros Hacc.
  set (lhs := alone 7 (NotStarted s) w).
  unfold connect_to_server, _load_tools, get_client.
  unfold bind at 1.
  destruct (dict_get (servers (client w)) s) as [cfg|] eqn:Hs.
  2: { unfold ret. intros E; inversion E; subst. subst lhs.
       cbn [run_alone]. unfold attempt_step. cbn [resume].
       rewrite Hacc, Hs. reflexivity. }
  unfold_monad.
  run_tidy.
  all: intros E; try discriminate E; inversion E; subst b w'; clear E.
  all: subst lhs.
  all: cbn [run_alone]; unfold attempt_step at 1; cbn [resume];
    rewrite Hacc, Hs.
  all: do 6 resume_once.
  all: reflexivity.
Qed.

(** X4.  Whatever the order in which [asyncio.gather] resumes the
    connection attempts of [connect_to_all_servers], and however far it has
    got: the server definitions are as they were, every server of the
    process table is a configured one and is there once, every server with
    a sub-catalog is in the process table, and no entry of the catalog
    names a server, so that resolving the owner of any tool call gives
    None. *)
Theorem live_servers_are_configured_once n w tasks w' :
  tables_ok (servers (client w)) (client w) ->
  run n (connection_tasks w, w) (tasks, w') ->
  servers (client w') = servers (client w) /\
  incl (dict_keys (processes (client w'))) (dict_keys (servers (client w))) /\
  NoDup (dict_keys (processes (client w'))) /\
  incl (dict_keys (tools_cache (client w')))
       (dict_keys (processes (client w'))) /\
  forall tc,
    _extract_server_name_from_tool tc (get_all_tools (client w')) = Ok JNull.
Proof.
  intros Ht Hrun.
  eapply run_sound in Hrun as [Ht' _]; eauto using connection_tasks_ok.
  destruct Ht' as (Hs & Hp & Hc & Hnp & _ & Hplain).
  split_conj; auto.
  intros tc. apply resolve_loop_converted. now apply plain_catalog_tools.
Qed.



End Gather.

Lemma fresh_tables_ok srv : tables_ok srv (client (fresh srv)).
Proof.
  unfold tables_ok, plain_catalog. simpl.
  split_conj; auto using incl_nil_l, NoDup_nil.
Qed.

Lemma live_servers_are_configured_once_witness :
  match gather_schedule echo_child prints_all codec_error interleaved
          (connection_tasks two_servers, two_servers) with
  | Some (tasks, w') =>
      NoDup (dict_keys (processes (client w'))) /\
      forall tc,
        _extract_server_name_from_tool tc (get_all_tools (client w')) = Ok JNull
  | None => False
  end.
Proof.
  destruct (gather_schedule echo_child prints_all codec_error interleaved
              (connection_tasks two_servers, two_servers))
    as [[tasks w']|] eqn:E; [|vm_compute in E; discriminate E].
  destruct (live_servers_are_configured_once echo_child prints_all codec_error
              (length interleaved) two_servers tasks w')
    as (_ & _ & Hn & _ & Hr).
  - apply fresh_tables_ok.
  - apply gather_schedule_run. exact E.
  - split; assumption.
Defined.


